(** * rush-pnpm: the command-line gatekeeper in front of PNPM

    A shallow embedding of
    [libraries/rush-lib/src/cli/RushPnpmCommandLineParser.ts] and the
    properties of its argument classification, environment merge,
    exit-status protocol and post-invocation synchronisation.

    The TypeScript class mutates its own fields, [process.exitCode] and the
    outside world (terminal, file system, child process) and aborts with
    exceptions.  The embedding threads one [State] through a small
    state-and-exception monad; every externally visible effect is appended
    to a log, in program order. *)

From Stdlib Require Import ZArith Ascii String List Bool Lia.
From stdpp Require Import base option list strings gmap fin_maps.
Import ListNotations.

Local Open Scope string_scope.
Local Open Scope Z_scope.
Local Open Scope list_scope.

(** ** Strings *)

(** The line feed of the ['\n'] escapes and the double quote that the
    messages of the source put around names. *)
Definition LF : string := String (ascii_of_nat 10) EmptyString.
Definition DQ : string := String (ascii_of_nat 34) EmptyString.
Definition quoted (s : string) : string := DQ +:+ s +:+ DQ.

(** [const RUSH_SKIP_CHECKS_PARAMETER: string = '--rush-skip-checks';] *)
Definition RUSH_SKIP_CHECKS_PARAMETER : string := "--rush-skip-checks".

(** ** Arrays of strings, as the source uses them *)

(** [Array.prototype.includes] on strings (strict equality). *)
Definition includes (l : list string) (x : string) : bool :=
  existsb (String.eqb x) l.

(** [Array.prototype.indexOf]: the first index holding [x], or [-1]. *)
Fixpoint indexOf (l : list string) (x : string) : Z :=
  match l with
  | [] => -1
  | y :: l' =>
      if String.eqb y x then 0
      else let i := indexOf l' x in if i <? 0 then -1 else i + 1
  end.

(** [l[i] === x]: reading past the end gives [undefined], which is not
    equal to any string. *)
Definition at_is (l : list string) (i : nat) (x : string) : bool :=
  match l !! i with
  | Some y => String.eqb y x
  | None => false
  end.

(** [pnpmArgs.shift()]: removes the first element, in place. *)
Definition shift (l : list string) : list string := tail l.

(** [pnpmArgs.splice(1, 1)]: removes the element at index 1, in place. *)
Definition splice_1_1 (l : list string) : list string :=
  match l with
  | x :: _ :: l' => x :: l'
  | _ => l
  end.

(** [process.argv.slice(2)] *)
Definition slice_2 (l : list string) : list string := drop 2 l.

(** ** The verb pattern [/^[a-z]+([a-z0-9\-])*$/] *)

Definition is_lower (c : ascii) : bool :=
  let n := nat_of_ascii c in (97 <=? n)%nat && (n <=? 122)%nat.

Definition is_digit (c : ascii) : bool :=
  let n := nat_of_ascii c in (48 <=? n)%nat && (n <=? 57)%nat.

Definition is_hyphen (c : ascii) : bool := (nat_of_ascii c =? 45)%nat.

(** The class [[a-z0-9\-]]. *)
Definition is_verb_tail (c : ascii) : bool :=
  is_lower c || is_digit c || is_hyphen c.

(** The greedy run of [[a-z]+] after its first character: what is left of
    the string once the letters are consumed. *)
Fixpoint skip_lower (s : string) : string :=
  match s with
  | String c s' => if is_lower c then skip_lower s' else s
  | EmptyString => s
  end.

(** [([a-z0-9\-])*$]: every remaining character is in the class. *)
Fixpoint all_verb_tail (s : string) : bool :=
  match s with
  | String c s' => is_verb_tail c && all_verb_tail s'
  | EmptyString => true
  end.

(** [/^[a-z]+([a-z0-9\-])*$/.test(s)] *)
Definition verb_pattern_test (s : string) : bool :=
  match s with
  | String c s' => is_lower c && all_verb_tail (skip_lower s')
  | EmptyString => false
  end.

(** ** Configuration, as the parser reads it *)

(** One value of [pnpmOptions.environmentVariables]:
    [{ value: envValue, override }]. *)
Record IConfigurationEnvironmentVariable := {
  value : string;
  override : bool
}.

Record PnpmOptionsConfiguration := {
  useWorkspaces : bool;
  pnpmStorePath : option string;
  (** A JavaScript object; [Object.entries] lists it as key-value pairs. *)
  environmentVariables : option (list (string * IConfigurationEnvironmentVariable))
}.

Record RushConfiguration := {
  packageManager : string;
  pnpmOptions : PnpmOptionsConfiguration;
  commonFolder : string;
  commonTempFolder : string;
  packageManagerToolFilename : string;
  tempShrinkwrapFilename : string;
  getCommittedShrinkwrapFilename : string
}.

(** ** Effects *)

(** What is written on the terminal.  [PrintUtilities.wrapWords] and
    [Colors.cyan] only lay the text out; they are kept as constructors. *)
Inductive Message :=
| Text (s : string)
| wrapWords (m : Message)
| cyan (m : Message)
| Cat (m1 m2 : Message).

Inductive Channel := ErrorLine | WarningLine | Line.

(** [SpawnSyncReturns<string>], the two fields the parser reads. *)
Record SpawnSyncReturns := {
  error : option string;
  status : option Z
}.

(** The effects on the outside world.  [SpawnSync] carries the arguments
    as the call receives them: [this._pnpmArgs] is [undefined] ([None])
    until the constructor assigns it. *)
Inductive Event :=
| Terminal (ch : Channel) (m : Message)
| SpawnSync (filename : string) (args : option (list string))
            (environmentMap : gmap string string)
| Exists (path : string)
| CopyFiles (sourcePath destinationPath : string)
| SyncFile (sourcePath destinationPath : string).

Inductive Exception :=
| AlreadyReportedError
| Error (message : string)
| TypeError (message : string).

Definition message_of (e : Exception) : string :=
  match e with
  | AlreadyReportedError => EmptyString
  | Error m => m
  | TypeError m => m
  end.

(** What the parser runs in: the command line, the environment, the Rush
    configuration found from the working directory (if any), and the
    synchronous subprocess service, which answers a call from the files
    present and says which files are present afterwards. *)
Record Host := {
  process_argv : list string;
  process_env : gmap string string;
  rushJson : option RushConfiguration;
  Executable_spawnSync :
    string -> option (list string) -> gmap string string ->
    (string -> bool) -> SpawnSyncReturns * (string -> bool)
}.

(** The fields of the parser, [process.exitCode], the files that exist,
    and the log of effects (oldest first). *)
Record State := {
  _rushConfiguration : option RushConfiguration;
  _pnpmArgs : option (list string);
  _commandName : option string;
  process_exitCode : option Z;
  files : string -> bool;
  log : list Event
}.

(** ** The monad: state, with exceptions that keep the state *)

Inductive Completion (A : Type) :=
| Normal (a : A)
| Throw (e : Exception).
Arguments Normal {A} a.
Arguments Throw {A} e.

Definition M (A : Type) : Type := State -> State * Completion A.

Definition ret {A} (a : A) : M A := fun st => (st, Normal a).

Definition bind {A B} (m : M A) (k : A -> M B) : M B :=
  fun st =>
    match m st with
    | (st', Normal a) => k a st'
    | (st', Throw e) => (st', Throw e)
    end.

Definition throw {A} (e : Exception) : M A := fun st => (st, Throw e).

Declare Scope js_scope.
Delimit Scope js_scope with js.
Notation "x <- c1 ;; c2" := (bind c1 (fun x => c2))
  (at level 100, c1 at next level, right associativity) : js_scope.
Notation "c1 ;; c2" := (bind c1 (fun _ => c2))
  (at level 100, right associativity) : js_scope.
Local Open Scope js_scope.

Definition emit (e : Event) : M unit :=
  fun st =>
    ({| _rushConfiguration := _rushConfiguration st;
        _pnpmArgs := _pnpmArgs st;
        _commandName := _commandName st;
        process_exitCode := process_exitCode st;
        files := files st;
        log := log st ++ [e] |}, Normal tt).

Definition writeErrorLine (m : Message) : M unit := emit (Terminal ErrorLine m).
Definition writeWarningLine (m : Message) : M unit := emit (Terminal WarningLine m).
Definition writeLine (m : Message) : M unit := emit (Terminal Line m).

Definition set_rushConfiguration (c : RushConfiguration) : M unit :=
  fun st =>
    ({| _rushConfiguration := Some c;
        _pnpmArgs := _pnpmArgs st;
        _commandName := _commandName st;
        process_exitCode := process_exitCode st;
        files := files st;
        log := log st |}, Normal tt).

Definition set_pnpmArgs (a : list string) : M unit :=
  fun st =>
    ({| _rushConfiguration := _rushConfiguration st;
        _pnpmArgs := Some a;
        _commandName := _commandName st;
        process_exitCode := process_exitCode st;
        files := files st;
        log := log st |}, Normal tt).

Definition set_commandName (v : string) : M unit :=
  fun st =>
    ({| _rushConfiguration := _rushConfiguration st;
        _pnpmArgs := _pnpmArgs st;
        _commandName := Some v;
        process_exitCode := process_exitCode st;
        files := files st;
        log := log st |}, Normal tt).

Definition set_exitCode (z : Z) : M unit :=
  fun st =>
    ({| _rushConfiguration := _rushConfiguration st;
        _pnpmArgs := _pnpmArgs st;
        _commandName := _commandName st;
        process_exitCode := Some z;
        files := files st;
        log := log st |}, Normal tt).

Definition set_files (f : string -> bool) : M unit :=
  fun st =>
    ({| _rushConfiguration := _rushConfiguration st;
        _pnpmArgs := _pnpmArgs st;
        _commandName := _commandName st;
        process_exitCode := process_exitCode st;
        files := f;
        log := log st |}, Normal tt).

Definition get {A} (f : State -> A) : M A := fun st => (st, Normal (f st)).

(** [FileSystem.exists(path)]: a probe of the file system, logged. *)
Definition FileSystem_exists (path : string) : M bool :=
  emit (Exists path) ;; get (fun st => files st path).

(** ** [_validatePnpmUsage] *)

Definition BYPASS_NOTICE : string :=
  "To bypass this check, add " +:+ quoted RUSH_SKIP_CHECKS_PARAMETER +:+
  " as the very first command line option.".

(** The [case] labels of the [switch (commandName)], group by group. *)
Definition BLOCKED : list string := ["import"].
Definition INSTALL_COMMANDS : list string :=
  ["add"; "install"; "i"; "install-test"; "it"].
Definition WARNING_COMMANDS : list string :=
  ["link"; "ln"; "remove"; "rm"; "unlink"; "update"; "up"].
Definition KNOWN_SAFE : list string :=
  ["audit"; "exec"; "list"; "ls"; "outdated"; "pack"; "patch"; "patch-commit";
   "prune"; "publish"; "rebuild"; "rb"; "root"; "run"; "start"; "store";
   "test"; "t"; "why"].

(** The array is mutated in place; the embedding returns its contents
    when the call returns.  No path that throws has touched the array. *)
Definition _validatePnpmUsage (pnpmArgs : list string) : M (list string) :=
  if at_is pnpmArgs 0 RUSH_SKIP_CHECKS_PARAMETER then
    (* Ignore other checks *)
    ret (shift pnpmArgs)
  else
  match pnpmArgs with
  | [] => ret pnpmArgs
  | firstArg :: _ =>
    (* Detect common safe invocations *)
    if includes pnpmArgs "-h" || includes pnpmArgs "--help" || includes pnpmArgs "-?"
    then ret pnpmArgs
    else if (length pnpmArgs =? 1)%nat &&
            (String.eqb firstArg "-v" || String.eqb firstArg "--version")
    then ret pnpmArgs
    else if negb (verb_pattern_test firstArg) then
      (* We can't parse this CLI syntax *)
      writeErrorLine
        (Text ("Warning: The " +:+ quoted "rush-pnpm" +:+
               " wrapper expects a command verb before " +:+ quoted firstArg +:+ LF)) ;;
      writeLine (cyan (Text BYPASS_NOTICE)) ;;
      throw AlreadyReportedError
    else
      let commandName := firstArg in
      (* Also accept SKIP_RUSH_CHECKS_PARAMETER immediately after the command verb *)
      if at_is pnpmArgs 1 RUSH_SKIP_CHECKS_PARAMETER then
        ret (splice_1_1 pnpmArgs)
      else if 0 <=? indexOf pnpmArgs RUSH_SKIP_CHECKS_PARAMETER then
        writeErrorLine
          (wrapWords
             (Text ("Error: The " +:+ quoted RUSH_SKIP_CHECKS_PARAMETER +:+
                    " option must be the first parameter for the " +:+
                    quoted "rush-pnpm" +:+ " command."))) ;;
        throw AlreadyReportedError
      else
        set_commandName commandName ;;
        (* Warn about commands known not to work *)
        if includes BLOCKED commandName then
          writeErrorLine
            (Cat (wrapWords
                    (Text ("Error: The " +:+ quoted ("pnpm " +:+ commandName) +:+
                           " command is known to be incompatible with Rush's environment.")))
                 (Text LF)) ;;
          writeLine (cyan (Text BYPASS_NOTICE)) ;;
          throw AlreadyReportedError
        else if includes INSTALL_COMMANDS commandName then
          writeErrorLine
            (Cat (wrapWords
                    (Text ("Error: The " +:+ quoted ("pnpm " +:+ commandName) +:+
                           " command is incompatible with Rush's environment." +:+
                           " Use the " +:+ quoted "rush install" +:+ " or " +:+
                           quoted "rush update" +:+ " commands instead.")))
                 (Text LF)) ;;
          writeLine (cyan (Text BYPASS_NOTICE)) ;;
          throw AlreadyReportedError
        else if includes WARNING_COMMANDS commandName then
          writeWarningLine
            (Cat (wrapWords
                    (Text ("Warning: The " +:+ quoted ("pnpm " +:+ commandName) +:+
                           " command makes changes that may invalidate Rush's workspace state.")))
                 (Text LF)) ;;
          writeWarningLine
            (Text ("==> Consider running " +:+ quoted "rush install" +:+ " or " +:+
                   quoted "rush update" +:+ " afterwards." +:+ LF)) ;;
          ret pnpmArgs
        else if includes KNOWN_SAFE commandName then
          ret pnpmArgs
        else
          writeErrorLine
            (Cat (wrapWords
                    (Text ("Error: The " +:+ quoted ("pnpm " +:+ commandName) +:+
                           " command has not been tested with Rush's environment." +:+
                           " It may be incompatible.")))
                 (Text LF)) ;;
          writeLine (cyan (Text BYPASS_NOTICE)) ;;
          throw AlreadyReportedError
  end.

(** ** The classification, as the rest of the program observes it

    The source has no decision value: a rejection is an exception, a
    warning is two lines on the warning channel, and the recognised verb
    is the field [_commandName].  [classify] runs [_validatePnpmUsage] in
    a fresh parser and reads the three off. *)

Inductive PolicyDecision := Allow | AllowWithWarning | Reject.

Definition fresh (exitCode : option Z) (fs : string -> bool) : State :=
  {| _rushConfiguration := None;
     _pnpmArgs := None;
     _commandName := None;
     process_exitCode := exitCode;
     files := fs;
     log := [] |}.

Definition is_warning (e : Event) : bool :=
  match e with
  | Terminal WarningLine _ => true
  | _ => false
  end.

Record Classification := {
  decision : PolicyDecision;
  (** the contents of the argument array after the call *)
  resulting : list string;
  (** [this._commandName] after the call *)
  recognizedVerb : option string
}.

Definition classify (pnpmArgs : list string) : Classification :=
  match _validatePnpmUsage pnpmArgs (fresh None (fun _ => false)) with
  | (st, Normal args') =>
      {| decision := if existsb is_warning (log st) then AllowWithWarning else Allow;
         resulting := args';
         recognizedVerb := _commandName st |}
  | (st, Throw _) =>
      {| decision := Reject;
         resulting := pnpmArgs;
         recognizedVerb := _commandName st |}
  end.

(** ** The environment of the child process *)

(** Modelled from the spec: the class [EnvironmentMap] belongs to
    node-core-library, and only its use is at hand.  The spec has it as
    the mapping passed to the child process: [set] puts a value under a
    name and replaces what was there.  Names are compared exactly. *)
Definition EnvironmentMap_set
    (m : gmap string string) (name val : string) : gmap string string :=
  <[name := val]> m.

(** Modelled from the spec: [EnvironmentMap.get] reads the value under a
    name, [undefined] ([None]) when the mapping does not define it. *)
Definition EnvironmentMap_get (m : gmap string string) (name : string) : option string :=
  m !! name.

(** One round of the loop over [Object.entries(environmentVariables)]. *)
Definition apply_environmentVariable
    (m : gmap string string) (e : string * IConfigurationEnvironmentVariable)
    : gmap string string :=
  let envKey := fst e in
  let envValue := value (snd e) in
  if override (snd e) then EnvironmentMap_set m envKey envValue
  else
    match EnvironmentMap_get m envKey with
    | None => EnvironmentMap_set m envKey envValue
    | Some _ => m
    end.

(** A string in a condition: the empty string is falsy. *)
Definition truthy (s : string) : bool :=
  match s with
  | EmptyString => false
  | _ => true
  end.

(** The first lines of [_execute], up to the call of [spawnSync]. *)
Definition pnpmEnvironmentMap
    (env : gmap string string) (rushConfiguration : RushConfiguration)
    : gmap string string :=
  let workspaceFolder := commonTempFolder rushConfiguration in
  let m := EnvironmentMap_set env "NPM_CONFIG_WORKSPACE_DIR" workspaceFolder in
  let m :=
    match pnpmStorePath (pnpmOptions rushConfiguration) with
    | Some p => if truthy p then EnvironmentMap_set m "NPM_CONFIG_STORE_DIR" p else m
    | None => m
    end in
  match environmentVariables (pnpmOptions rushConfiguration) with
  | Some vars => foldl apply_environmentVariable m vars
  | None => m
  end.

(** ** The parser *)

(** Modelled from the spec: [RushConstants.pnpmPatchesFolderName] is
    declared in another file; the comment at its use names the folder
    [common\temp\patches], the spec calls it the patches directory. *)
Definition pnpmPatchesFolderName : string := "patches".

(** [path.join] glues its arguments with the separator; the platform's
    normalisation plays no part in what follows. *)
Definition path_join (parts : list string) : string :=
  match parts with
  | [] => "."
  | p :: ps => foldl (fun acc q => acc +:+ "/" +:+ q) p ps
  end.

(** [os.EOL] *)
Definition os_EOL : string := LF.

Definition DO_YOU_NEED : string :=
  "Do you need to run " +:+ quoted "rush install" +:+ " or " +:+
  quoted "rush update" +:+ "?".

(** The [try] block of the constructor.  [NodeJsCompatibility] only
    prints advice about the Node.js version and is left out. *)
Definition constructor_try (h : Host) : M unit :=
  (* Are we in a Rush repo? *)
  match rushJson h with
  | None =>
      throw (Error ("The " +:+ quoted "rush-pnpm" +:+
                    " command must be executed in a folder that is under a Rush workspace folder"))
  | Some rushConfiguration =>
      set_rushConfiguration rushConfiguration ;;
      if negb (String.eqb (packageManager rushConfiguration) "pnpm") then
        throw (Error ("The " +:+ quoted "rush-pnpm" +:+
                      " command requires your rush.json to be configured to use the PNPM package manager"))
      else if negb (useWorkspaces (pnpmOptions rushConfiguration)) then
        throw (Error ("The " +:+ quoted "rush-pnpm" +:+ " command requires the " +:+
                      quoted "useWorkspaces" +:+ " setting to be enabled in rush.json"))
      else
        let workspaceFolder := commonTempFolder rushConfiguration in
        let workspaceFilePath := path_join [workspaceFolder; "pnpm-workspace.yaml"] in
        found <- FileSystem_exists workspaceFilePath ;;
        if negb found then
          writeErrorLine (Text "Error: The PNPM workspace file has not been generated:") ;;
          writeErrorLine (Text ("  " +:+ workspaceFilePath +:+ LF)) ;;
          writeLine (cyan (Text DO_YOU_NEED)) ;;
          throw AlreadyReportedError
        else
          installed <- FileSystem_exists (packageManagerToolFilename rushConfiguration) ;;
          if negb installed then
            writeErrorLine (Text "Error: The PNPM local binary has not been installed yet.") ;;
            writeLine (Cat (Text LF) (cyan (Text DO_YOU_NEED))) ;;
            throw AlreadyReportedError
          else
            (* 0 = node.exe, 1 = rush-pnpm *)
            let pnpmArgs := slice_2 (process_argv h) in
            pnpmArgs' <- _validatePnpmUsage pnpmArgs ;;
            set_pnpmArgs pnpmArgs'
  end.

(** [new RushPnpmCommandLineParser(options)]: the [catch] reports what is
    not already reported and the constructor returns normally. *)
Definition new_RushPnpmCommandLineParser
    (h : Host) (exitCode : option Z) (fs : string -> bool) : State :=
  match constructor_try h (fresh exitCode fs) with
  | (st, Normal _) => st
  | (st, Throw AlreadyReportedError) => st
  | (st, Throw e) =>
      fst (writeErrorLine
             (Cat (Text LF) (wrapWords (Text ("ERROR: " +:+ message_of e)))) st)
  end.

Definition _execute (h : Host) : M unit :=
  c <- get _rushConfiguration ;;
  match c with
  | None =>
      throw (TypeError "Cannot read properties of undefined (reading 'commonTempFolder')")
  | Some rushConfiguration =>
      let env := pnpmEnvironmentMap (process_env h) rushConfiguration in
      args <- get _pnpmArgs ;;
      fs <- get files ;;
      emit (SpawnSync (packageManagerToolFilename rushConfiguration) args env) ;;
      let result :=
        Executable_spawnSync h (packageManagerToolFilename rushConfiguration) args env fs in
      set_files (snd result) ;;
      match error (fst result) with
      | Some err => throw (Error ("Failed to invoke PNPM: " +:+ err))
      | None =>
          match status (fst result) with
          | None => throw (Error "Failed to invoke PNPM: Spawn completed without an exit code")
          | Some code => set_exitCode code
          end
      end
  end.

(** The two folders of the [patch-commit] case. *)
Definition commonTempPnpmPatchesFolder (rushConfiguration : RushConfiguration) : string :=
  path_join [commonTempFolder rushConfiguration; pnpmPatchesFolderName].

Definition rushPnpmPatchesFolder (rushConfiguration : RushConfiguration) : string :=
  path_join [commonFolder rushConfiguration; "pnpm"; pnpmPatchesFolderName].

Definition PATCHES_REFRESHED : Message :=
  Text ("Rush refreshed the pnpm patch files in the " +:+
        quoted "common/pnpm/patches" +:+ " folder and shrinkwrap file." +:+
        os_EOL +:+ "  Please commit this change to Git.").

Definition _postExecute : M unit :=
  name <- get _commandName ;;
  match name with
  | None => ret tt
  | Some commandName =>
      if negb (truthy commandName) then ret tt
      else if String.eqb commandName "patch-commit" then
        c <- get _rushConfiguration ;;
        match c with
        | None =>
            throw (TypeError "Cannot read properties of undefined (reading 'commonTempFolder')")
        | Some rushConfiguration =>
            found <- FileSystem_exists (commonTempPnpmPatchesFolder rushConfiguration) ;;
            if found then
              (* Copy common\temp\patches\ to common\pnpm\patches\ *)
              emit (CopyFiles (commonTempPnpmPatchesFolder rushConfiguration)
                              (rushPnpmPatchesFolder rushConfiguration)) ;;
              (* Copy (or delete) common\temp\pnpm-lock.yaml --> common\config\rush\pnpm-lock.yaml *)
              emit (SyncFile (tempShrinkwrapFilename rushConfiguration)
                             (getCommittedShrinkwrapFilename rushConfiguration)) ;;
              writeWarningLine PATCHES_REFRESHED
            else ret tt
        end
      else ret tt
  end.

Definition execute (h : Host) : M unit :=
  set_exitCode 1 ;;
  _execute h ;;
  code <- get process_exitCode ;;
  match code with
  | Some 0 => _postExecute
  | _ => ret tt
  end.

(** The whole invocation: build the parser, then call [execute]. *)
Definition launch (h : Host) (fs : string -> bool) : State * Completion unit :=
  execute h (new_RushPnpmCommandLineParser h None fs).

(** The calls of the subprocess service in a log. *)
Definition is_spawn (e : Event) : bool :=
  match e with
  | SpawnSync _ _ _ => true
  | _ => false
  end.

Definition spawns (l : list Event) : list Event := List.filter is_spawn l.

(** ** Vocabulary of the statements *)

(** [pnpmArgs.includes('-h') || pnpmArgs.includes('--help') ||
    pnpmArgs.includes('-?')] *)
Definition has_help_flag (l : list string) : bool :=
  includes l "-h" || includes l "--help" || includes l "-?".

(** The [switch] as a table from verbs to decisions. *)
Definition verb_policy (commandName : string) : PolicyDecision :=
  if includes BLOCKED commandName then Reject
  else if includes INSTALL_COMMANDS commandName then Reject
  else if includes WARNING_COMMANDS commandName then AllowWithWarning
  else if includes KNOWN_SAFE commandName then Allow
  else Reject.

(** The entries that the loop goes through: none when the setting is
    absent. *)
Definition declared (c : RushConfiguration)
    : list (string * IConfigurationEnvironmentVariable) :=
  default [] (environmentVariables (pnpmOptions c)).

(** The map when the loop starts: [process.env] with the two settings
    of the wrapper itself. *)
Definition preset (env : gmap string string) (c : RushConfiguration)
    : gmap string string :=
  let m := EnvironmentMap_set env "NPM_CONFIG_WORKSPACE_DIR" (commonTempFolder c) in
  match pnpmStorePath (pnpmOptions c) with
  | Some p => if truthy p then EnvironmentMap_set m "NPM_CONFIG_STORE_DIR" p else m
  | None => m
  end.

(** The names that the wrapper sets itself. *)
Definition reserved (c : RushConfiguration) : list string :=
  "NPM_CONFIG_WORKSPACE_DIR" ::
  match pnpmStorePath (pnpmOptions c) with
  | Some p => if truthy p then ["NPM_CONFIG_STORE_DIR"] else []
  | None => []
  end.

(** The one call of the subprocess service that [_execute] makes from a
    parser whose configuration is [c], and its answer. *)
Definition spawn_event (h : Host) (st : State) (c : RushConfiguration) : Event :=
  SpawnSync (packageManagerToolFilename c) (_pnpmArgs st)
            (pnpmEnvironmentMap (process_env h) c).

Definition spawn_answer (h : Host) (st : State) (c : RushConfiguration)
    : SpawnSyncReturns * (string -> bool) :=
  Executable_spawnSync h (packageManagerToolFilename c) (_pnpmArgs st)
    (pnpmEnvironmentMap (process_env h) c) (files st).

(** The exit status that a spawn result leaves behind. *)
Definition exit_status_of (result : SpawnSyncReturns) : Z :=
  match error result, status result with
  | None, Some code => code
  | _, _ => 1
  end.

(** What [_postExecute] does to the world, from the configuration, the
    verb kept by the classification and the presence of the temporary
    patches folder: the probe, then the copy, then the lockfile sync, then
    the notice. *)
Definition patch_commit_sync (c : RushConfiguration) (present : bool) : list Event :=
  Exists (commonTempPnpmPatchesFolder c) ::
  if present then
    [CopyFiles (commonTempPnpmPatchesFolder c) (rushPnpmPatchesFolder c);
     SyncFile (tempShrinkwrapFilename c) (getCommittedShrinkwrapFilename c);
     Terminal WarningLine PATCHES_REFRESHED]
  else [].

(** The checks of the constructor that come before the classification
    all pass: a Rush workspace configured for PNPM with workspaces, the
    workspace file generated and the PNPM binary installed. *)
Definition ready (h : Host) (fs : string -> bool) (c : RushConfiguration) : Prop :=
  rushJson h = Some c /\
  String.eqb (packageManager c) "pnpm" = true /\
  useWorkspaces (pnpmOptions c) = true /\
  fs (path_join [commonTempFolder c; "pnpm-workspace.yaml"]) = true /\
  fs (packageManagerToolFilename c) = true.

(** A workspace as Rush lays it out, with the declared variables left
    open, for the examples below. *)
Definition example_configuration
    (storePath : option string)
    (vars : option (list (string * IConfigurationEnvironmentVariable)))
    : RushConfiguration :=
  {| packageManager := "pnpm";
     pnpmOptions :=
       {| useWorkspaces := true;
          pnpmStorePath := storePath;
          environmentVariables := vars |};
     commonFolder := "/repo/common";
     commonTempFolder := "/repo/common/temp";
     packageManagerToolFilename := "/repo/common/temp/pnpm-local/node_modules/.bin/pnpm";
     tempShrinkwrapFilename := "/repo/common/temp/pnpm-lock.yaml";
     getCommittedShrinkwrapFilename := "/repo/common/config/rush/pnpm-lock.yaml" |}.

(** A host in the example workspace: an empty environment, and a child
    that exits with status 0 and leaves the files as they are. *)
Definition example_host (pnpmArgs : list string) : Host :=
  {| process_argv := "node" :: "rush-pnpm" :: pnpmArgs;
     process_env := ∅;
     rushJson := Some (example_configuration None None);
     Executable_spawnSync :=
       fun _ _ _ fs => ({| error := None; status := Some 0 |}, fs) |}.

(** The version flags of the single-token check. *)
Definition is_version_flag (s : string) : bool :=
  String.eqb s "-v" || String.eqb s "--version".

(** The checks of [_validatePnpmUsage] in the order of the source, without
    the terminal: what each branch decides, what it leaves in the array
    and whether it has assigned [_commandName]. *)
Definition classify_rules (pnpmArgs : list string) : Classification :=
  if at_is pnpmArgs 0 RUSH_SKIP_CHECKS_PARAMETER then
    {| decision := Allow; resulting := shift pnpmArgs; recognizedVerb := None |}
  else
    match pnpmArgs with
    | [] => {| decision := Allow; resulting := pnpmArgs; recognizedVerb := None |}
    | firstArg :: _ =>
        if has_help_flag pnpmArgs then
          {| decision := Allow; resulting := pnpmArgs; recognizedVerb := None |}
        else if (length pnpmArgs =? 1)%nat && is_version_flag firstArg then
          {| decision := Allow; resulting := pnpmArgs; recognizedVerb := None |}
        else if negb (verb_pattern_test firstArg) then
          {| decision := Reject; resulting := pnpmArgs; recognizedVerb := None |}
        else if at_is pnpmArgs 1 RUSH_SKIP_CHECKS_PARAMETER then
          {| decision := Allow; resulting := splice_1_1 pnpmArgs; recognizedVerb := None |}
        else if 0 <=? indexOf pnpmArgs RUSH_SKIP_CHECKS_PARAMETER then
          {| decision := Reject; resulting := pnpmArgs; recognizedVerb := None |}
        else
          {| decision := verb_policy firstArg;
             resulting := pnpmArgs;
             recognizedVerb := Some firstArg |}
    end.

(** What [_validatePnpmUsage] writes on the terminal, in a fresh parser. *)
Definition report (pnpmArgs : list string) : list Event :=
  log (fst (_validatePnpmUsage pnpmArgs (fresh None (fun _ => false)))).

Definition is_error_line (e : Event) : bool :=
  match e with
  | Terminal ErrorLine _ => true
  | _ => false
  end.

(** The lines on the terminal in a log. *)
Definition is_terminal (e : Event) : bool :=
  match e with
  | Terminal _ _ => true
  | _ => false
  end.

(** The writes of the synchronizer in a log: the copy and the sync. *)
Definition is_sync (e : Event) : bool :=
  match e with
  | CopyFiles _ _ => true
  | SyncFile _ _ => true
  | _ => false
  end.

Definition syncs (l : list Event) : list Event := List.filter is_sync l.

(** The probes of the file system in a log. *)
Definition is_probe (e : Event) : bool :=
  match e with
  | Exists _ => true
  | _ => false
  end.

(** The checks of the constructor between loading the configuration and
    the classification, as one condition. *)
Definition checks_pass (fs : string -> bool) (c : RushConfiguration) : bool :=
  String.eqb (packageManager c) "pnpm" &&
  useWorkspaces (pnpmOptions c) &&
  fs (path_join [commonTempFolder c; "pnpm-workspace.yaml"]) &&
  fs (packageManagerToolFilename c).

(** The argument list that the parser hands to the subprocess service:
    the classified list when every check passed and the list was not
    rejected, [undefined] otherwise. *)
Definition spawned_arguments (h : Host) (fs : string -> bool) (c : RushConfiguration)
    : option (list string) :=
  if checks_pass fs c then
    match decision (classify (slice_2 (process_argv h))) with
    | Reject => None
    | _ => Some (resulting (classify (slice_2 (process_argv h))))
    end
  else None.

(** The message of the generic report for the three configuration
    errors, and the [TypeError] of reading a field of [undefined]. *)
Definition NOT_IN_A_WORKSPACE : string :=
  "The " +:+ quoted "rush-pnpm" +:+
  " command must be executed in a folder that is under a Rush workspace folder".

Definition NO_CONFIGURATION : Exception :=
  TypeError "Cannot read properties of undefined (reading 'commonTempFolder')".

(** * Properties *)

(** ** Arrays and the verb pattern *)

Lemma includes_In (l : list string) (x : string) :
  includes l x = true <-> In x l.
Proof.
  unfold includes. rewrite existsb_exists. split.
  - intros (y & Hy & He). apply String.eqb_eq in He. now subst.
  - intros H. exists x. split; [assumption | apply String.eqb_refl].
Qed.

Lemma includes_not_In (l : list string) (x : string) :
  includes l x = false <-> ~ In x l.
Proof.
  rewrite <- includes_In. destruct (includes l x); split; congruence.
Qed.

Lemma includes_cons (y : string) (l : list string) (x : string) :
  includes (y :: l) x = String.eqb x y || includes l x.
Proof. reflexivity. Qed.

Lemma indexOf_In (l : list string) (x : string) :
  (0 <=? indexOf l x) = true <-> In x l.
Proof.
  assert (Hlow : forall l', -1 <= indexOf l' x).
  { induction l' as [|y l' IH]; simpl; [lia|].
    destruct (String.eqb y x); [lia|].
    destruct (indexOf l' x <? 0) eqn:E; [lia|]. apply Z.ltb_ge in E. lia. }
  induction l as [|y l IH]; simpl.
  - split; [discriminate | tauto].
  - destruct (String.eqb y x) eqn:E.
    + apply String.eqb_eq in E. split; auto.
    + apply String.eqb_neq in E.
      destruct (indexOf l x <? 0) eqn:E'.
      * apply Z.ltb_lt in E'. split; [discriminate|].
        intros [H|H]; [contradiction|]. apply IH in H.
        apply Z.leb_le in H. lia.
      * apply Z.ltb_ge in E'. split.
        -- intros _. right. apply IH. now apply Z.leb_le.
        -- intros _. apply Z.leb_le. lia.
Qed.

Lemma indexOf_not_In (l : list string) (x : string) :
  ~ In x l -> (0 <=? indexOf l x) = false.
Proof.
  intros H. destruct (0 <=? indexOf l x) eqn:E; [|reflexivity].
  apply indexOf_In in E. contradiction.
Qed.

Lemma at_is_In (l : list string) (i : nat) (x : string) :
  at_is l i x = true -> In x l.
Proof.
  unfold at_is. destruct (l !! i) as [y|] eqn:E; [|discriminate].
  intros H. apply String.eqb_eq in H. subst y.
  apply list_elem_of_In. eapply list_elem_of_lookup_2. exact E.
Qed.

(** The greedy reading of the pattern accepts what the plain reading
    does: a lowercase letter, then letters, digits and hyphens. *)
Lemma all_verb_tail_skip_lower (s : string) :
  all_verb_tail (skip_lower s) = all_verb_tail s.
Proof.
  induction s as [|c s IH]; simpl; [reflexivity|].
  destruct (is_lower c) eqn:E.
  - rewrite IH. unfold is_verb_tail. now rewrite E.
  - reflexivity.
Qed.

Lemma verb_pattern_test_spec (s : string) :
  verb_pattern_test s = true <->
  exists c s', s = String c s' /\ is_lower c = true /\ all_verb_tail s' = true.
Proof.
  destruct s as [|c s]; simpl.
  - split; [discriminate | intros (c & s' & H & _); discriminate].
  - rewrite all_verb_tail_skip_lower, andb_true_iff. split.
    + intros [H1 H2]. now exists c, s.
    + intros (c' & s' & H & H1 & H2). injection H as -> ->. now split.
Qed.

(** A verb never equals an option: options start with a hyphen. *)
Lemma verb_is_not_an_option (v : string) (s : string) :
  verb_pattern_test v = true ->
  String.eqb v (String "-" s) = false /\ String.eqb (String "-" s) v = false.
Proof.
  intros H. apply verb_pattern_test_spec in H as (c & s' & -> & Hc & _).
  assert (Hne : String c s' <> String "-" s).
  { intros Heq. injection Heq as -> _. discriminate Hc. }
  split; apply String.eqb_neq; congruence.
Qed.

Lemma verb_is_not_the_sentinel (v : string) :
  verb_pattern_test v = true ->
  String.eqb v RUSH_SKIP_CHECKS_PARAMETER = false.
Proof. intros H. now apply (verb_is_not_an_option v "-rush-skip-checks"). Qed.

(** ** The classification, case by case *)

Lemma has_help_flag_verb (v : string) (rest : list string) :
  verb_pattern_test v = true ->
  has_help_flag (v :: rest) = has_help_flag rest.
Proof.
  intros Hv. unfold has_help_flag. rewrite !includes_cons.
  destruct (verb_is_not_an_option v "h" Hv) as [_ ->].
  destruct (verb_is_not_an_option v "-help" Hv) as [_ ->].
  destruct (verb_is_not_an_option v "?" Hv) as [_ ->].
  reflexivity.
Qed.

(** Rule 1: the sentinel in front. *)
Lemma classify_bypass_first (rest : list string) :
  classify (RUSH_SKIP_CHECKS_PARAMETER :: rest) =
  {| decision := Allow; resulting := rest; recognizedVerb := None |}.
Proof. reflexivity. Qed.

(** Rule 3: a help flag anywhere, behind a verb. *)
Lemma classify_help (v : string) (rest : list string) :
  verb_pattern_test v = true ->
  has_help_flag rest = true ->
  classify (v :: rest) =
  {| decision := Allow; resulting := v :: rest; recognizedVerb := None |}.
Proof.
  intros Hv Hh. rewrite <- (has_help_flag_verb v rest Hv) in Hh.
  unfold has_help_flag in Hh.
  unfold classify, _validatePnpmUsage.
  change (at_is (v :: rest) 0 RUSH_SKIP_CHECKS_PARAMETER)
    with (String.eqb v RUSH_SKIP_CHECKS_PARAMETER).
  rewrite (verb_is_not_the_sentinel v Hv).
  rewrite Hh. reflexivity.
Qed.

(** Rule 6: the sentinel right after the verb. *)
Lemma classify_bypass_second (v : string) (rest : list string) :
  verb_pattern_test v = true ->
  has_help_flag rest = false ->
  classify (v :: RUSH_SKIP_CHECKS_PARAMETER :: rest) =
  {| decision := Allow; resulting := v :: rest; recognizedVerb := None |}.
Proof.
  intros Hv Hh.
  assert (Hh' : has_help_flag (v :: RUSH_SKIP_CHECKS_PARAMETER :: rest) = false).
  { rewrite has_help_flag_verb by assumption. exact Hh. }
  unfold has_help_flag in Hh'.
  unfold classify, _validatePnpmUsage.
  change (at_is (v :: RUSH_SKIP_CHECKS_PARAMETER :: rest) 0 RUSH_SKIP_CHECKS_PARAMETER)
    with (String.eqb v RUSH_SKIP_CHECKS_PARAMETER).
  rewrite (verb_is_not_the_sentinel v Hv).
  rewrite Hh', Hv. reflexivity.
Qed.

(** Rule 7: the sentinel further behind. *)
Lemma classify_bypass_misplaced (v : string) (rest : list string) :
  verb_pattern_test v = true ->
  has_help_flag rest = false ->
  at_is rest 0 RUSH_SKIP_CHECKS_PARAMETER = false ->
  In RUSH_SKIP_CHECKS_PARAMETER rest ->
  classify (v :: rest) =
  {| decision := Reject; resulting := v :: rest; recognizedVerb := None |}.
Proof.
  intros Hv Hh H1 Hin.
  rewrite <- (has_help_flag_verb v rest Hv) in Hh. unfold has_help_flag in Hh.
  assert (Hidx : (0 <=? indexOf (v :: rest) RUSH_SKIP_CHECKS_PARAMETER) = true).
  { apply indexOf_In. now right. }
  unfold classify, _validatePnpmUsage.
  change (at_is (v :: rest) 0 RUSH_SKIP_CHECKS_PARAMETER)
    with (String.eqb v RUSH_SKIP_CHECKS_PARAMETER).
  change (at_is (v :: rest) 1 RUSH_SKIP_CHECKS_PARAMETER)
    with (at_is rest 0 RUSH_SKIP_CHECKS_PARAMETER).
  rewrite (verb_is_not_the_sentinel v Hv).
  destruct (verb_is_not_an_option v "v" Hv) as [-> _].
  destruct (verb_is_not_an_option v "-version" Hv) as [-> _].
  rewrite Hh, Hv, H1, Hidx, andb_false_r. reflexivity.
Qed.

(** Rule 8: no help flag and no sentinel, so the table decides; the
    array is untouched and the verb is kept in [_commandName]. *)
Lemma classify_table (v : string) (rest : list string) :
  verb_pattern_test v = true ->
  has_help_flag rest = false ->
  ~ In RUSH_SKIP_CHECKS_PARAMETER rest ->
  classify (v :: rest) =
  {| decision := verb_policy v; resulting := v :: rest; recognizedVerb := Some v |}.
Proof.
  intros Hv Hh Hin.
  rewrite <- (has_help_flag_verb v rest Hv) in Hh. unfold has_help_flag in Hh.
  assert (H1 : at_is rest 0 RUSH_SKIP_CHECKS_PARAMETER = false).
  { destruct (at_is rest 0 RUSH_SKIP_CHECKS_PARAMETER) eqn:E; [|reflexivity].
    apply at_is_In in E. contradiction. }
  assert (Hidx : (0 <=? indexOf (v :: rest) RUSH_SKIP_CHECKS_PARAMETER) = false).
  { apply indexOf_not_In. intros [Heq|Hr]; [|contradiction].
    subst v. discriminate Hv. }
  unfold classify, _validatePnpmUsage, verb_policy.
  change (at_is (v :: rest) 0 RUSH_SKIP_CHECKS_PARAMETER)
    with (String.eqb v RUSH_SKIP_CHECKS_PARAMETER).
  change (at_is (v :: rest) 1 RUSH_SKIP_CHECKS_PARAMETER)
    with (at_is rest 0 RUSH_SKIP_CHECKS_PARAMETER).
  rewrite (verb_is_not_the_sentinel v Hv).
  destruct (verb_is_not_an_option v "v" Hv) as [-> _].
  destruct (verb_is_not_an_option v "-version" Hv) as [-> _].
  rewrite Hh, Hv, H1, Hidx, andb_false_r.
  cbn [negb].
  destruct (includes BLOCKED v); [reflexivity|].
  destruct (includes INSTALL_COMMANDS v); [reflexivity|].
  destruct (includes WARNING_COMMANDS v); [reflexivity|].
  destruct (includes KNOWN_SAFE v); reflexivity.
Qed.

Lemma has_help_flag_sentinel (rest : list string) :
  has_help_flag (RUSH_SKIP_CHECKS_PARAMETER :: rest) = has_help_flag rest.
Proof. reflexivity. Qed.

Lemma at_is_0_inv (l : list string) (x : string) :
  at_is l 0 x = true -> l = x :: tail l.
Proof.
  destruct l as [|y l]; [discriminate|].
  unfold at_is. simpl. intros H. apply String.eqb_eq in H. now subst.
Qed.

(** Every list that starts with a verb falls under exactly one of the
    rules 3, 6, 7 and 8, in this order. *)
Lemma classify_verb (v : string) (rest : list string) :
  verb_pattern_test v = true ->
  classify (v :: rest) =
  if has_help_flag rest then
    {| decision := Allow; resulting := v :: rest; recognizedVerb := None |}
  else if at_is rest 0 RUSH_SKIP_CHECKS_PARAMETER then
    {| decision := Allow; resulting := v :: tail rest; recognizedVerb := None |}
  else if includes rest RUSH_SKIP_CHECKS_PARAMETER then
    {| decision := Reject; resulting := v :: rest; recognizedVerb := None |}
  else
    {| decision := verb_policy v; resulting := v :: rest; recognizedVerb := Some v |}.
Proof.
  intros Hv.
  destruct (has_help_flag rest) eqn:Hh.
  { now apply classify_help. }
  destruct (at_is rest 0 RUSH_SKIP_CHECKS_PARAMETER) eqn:H1.
  { apply at_is_0_inv in H1. rewrite H1 at 1.
    apply classify_bypass_second; [assumption|].
    rewrite H1, has_help_flag_sentinel in Hh. exact Hh. }
  destruct (includes rest RUSH_SKIP_CHECKS_PARAMETER) eqn:Hi.
  - apply classify_bypass_misplaced; try assumption. now apply includes_In.
  - apply classify_table; try assumption. now apply includes_not_In.
Qed.

(** The labels of the [switch]: all are verbs, and each group has one
    decision. *)
Ltac each_label H :=
  simpl in H;
  repeat (destruct H as [H | H]; [subst; vm_compute; try reflexivity |]);
  try contradiction.

Lemma install_commands_policy (v : string) :
  In v INSTALL_COMMANDS -> verb_pattern_test v = true /\ verb_policy v = Reject.
Proof. intros H. each_label H; split; reflexivity. Qed.

Lemma warning_commands_policy (v : string) :
  In v WARNING_COMMANDS ->
  verb_pattern_test v = true /\ verb_policy v = AllowWithWarning.
Proof. intros H. each_label H; split; reflexivity. Qed.

Lemma known_safe_policy (v : string) :
  In v KNOWN_SAFE -> verb_pattern_test v = true /\ verb_policy v = Allow.
Proof. intros H. each_label H; split; reflexivity. Qed.

(** ** Bypass placement *)

(** C3: the sentinel in front or right after the verb is taken out and the
    list is allowed; the sentinel further behind is rejected. *)
Theorem bypass_placement :
  (decision (classify ["--rush-skip-checks"; "add"; "foo"]) = Allow /\
   resulting (classify ["--rush-skip-checks"; "add"; "foo"]) = ["add"; "foo"]) /\
  (decision (classify ["add"; "--rush-skip-checks"; "foo"]) = Allow /\
   resulting (classify ["add"; "--rush-skip-checks"; "foo"]) = ["add"; "foo"]) /\
  decision (classify ["add"; "foo"; "--rush-skip-checks"]) = Reject.
Proof. repeat split; vm_compute; reflexivity. Qed.

(** ** The verb table *)

(** C7: an install-family verb is rejected when no help flag and no
    sentinel follows it; with the sentinel in front the list is allowed and
    the sentinel is removed. *)
Theorem install_family_rejected_unless_bypassed (v : string) (rest : list string) :
  In v INSTALL_COMMANDS ->
  (has_help_flag rest = false ->
   ~ In RUSH_SKIP_CHECKS_PARAMETER rest ->
   decision (classify (v :: rest)) = Reject) /\
  decision (classify (RUSH_SKIP_CHECKS_PARAMETER :: v :: rest)) = Allow /\
  resulting (classify (RUSH_SKIP_CHECKS_PARAMETER :: v :: rest)) = v :: rest.
Proof.
  intros Hin. destruct (install_commands_policy v Hin) as [Hv Hp].
  split; [| now rewrite classify_bypass_first].
  intros Hh Hs. rewrite classify_table by assumption. exact Hp.
Qed.

Lemma install_family_rejected_unless_bypassed_witness :
  decision (classify ["install-test"; "--frozen-lockfile"]) = Reject /\
  decision (classify ["--rush-skip-checks"; "install-test"; "--frozen-lockfile"]) = Allow /\
  resulting (classify ["--rush-skip-checks"; "install-test"; "--frozen-lockfile"]) =
    ["install-test"; "--frozen-lockfile"].
Proof.
  assert (Hin : In "install-test" INSTALL_COMMANDS) by (simpl; tauto).
  destruct (install_family_rejected_unless_bypassed
              "install-test" ["--frozen-lockfile"] Hin) as [Hrej Hbypass].
  split; [| exact Hbypass].
  apply Hrej; [reflexivity |].
  intros [H | H]; [discriminate H | exact H].
Defined.

(** C8: a state-mutating verb with no help flag and no sentinel behind it
    is allowed with a warning, and the verb is still the first token. *)
Theorem state_mutating_allowed_with_warning (v : string) (rest : list string) :
  In v WARNING_COMMANDS ->
  has_help_flag rest = false ->
  ~ In RUSH_SKIP_CHECKS_PARAMETER rest ->
  decision (classify (v :: rest)) = AllowWithWarning /\
  resulting (classify (v :: rest)) !! 0%nat = Some v.
Proof.
  intros Hin Hh Hs. destruct (warning_commands_policy v Hin) as [Hv Hp].
  rewrite classify_table by assumption. split; [exact Hp | reflexivity].
Qed.

Lemma state_mutating_allowed_with_warning_witness :
  decision (classify ["rm"; "lodash"]) = AllowWithWarning /\
  resulting (classify ["rm"; "lodash"]) !! 0%nat = Some "rm".
Proof.
  apply (state_mutating_allowed_with_warning "rm" ["lodash"]).
  - simpl; tauto.
  - reflexivity.
  - intros [H|[]]. discriminate H.
Defined.

(** C9, as stated, fails: [audit] is known safe, yet a sentinel two
    places behind it gets the list rejected. *)
Lemma known_safe_not_unconditional :
  In "audit" KNOWN_SAFE /\
  decision (classify ["audit"; "foo"; "--rush-skip-checks"]) = Reject.
Proof. split; [simpl; tauto | vm_compute; reflexivity]. Qed.

(** C9, amended: a known-safe verb is allowed when a help flag follows, or
    the sentinel is right behind the verb, or there is no sentinel at all;
    with the sentinel further behind (and no help flag) it is rejected. *)
Theorem known_safe_allowed (v : string) (rest : list string) :
  In v KNOWN_SAFE ->
  decision (classify (v :: rest)) =
  if has_help_flag rest
     || at_is rest 0 RUSH_SKIP_CHECKS_PARAMETER
     || negb (includes rest RUSH_SKIP_CHECKS_PARAMETER)
  then Allow else Reject.
Proof.
  intros Hin. destruct (known_safe_policy v Hin) as [Hv Hp].
  rewrite classify_verb by assumption.
  destruct (has_help_flag rest); [reflexivity|].
  destruct (at_is rest 0 RUSH_SKIP_CHECKS_PARAMETER); [reflexivity|].
  destruct (includes rest RUSH_SKIP_CHECKS_PARAMETER); [reflexivity|].
  exact Hp.
Qed.

Lemma known_safe_allowed_witness :
  decision (classify ["patch-commit"; "lodash@4.17.21"]) = Allow /\
  decision (classify ["ls"; "--depth"; "--rush-skip-checks"]) = Reject.
Proof.
  split.
  - apply (known_safe_allowed "patch-commit" ["lodash@4.17.21"]). simpl; tauto.
  - apply (known_safe_allowed "ls" ["--depth"; "--rush-skip-checks"]). simpl; tauto.
Defined.

(** ** The verb kept for the synchronizer *)

(** C2, as stated, fails: [patch-commit] with the sentinel right behind it
    is allowed, and no verb is kept. *)
Lemma verb_not_retained_under_bypass :
  verb_pattern_test "patch-commit" = true /\
  decision (classify ["patch-commit"; "--rush-skip-checks"]) = Allow /\
  recognizedVerb (classify ["patch-commit"; "--rush-skip-checks"]) = None.
Proof. repeat split; vm_compute; reflexivity. Qed.

(** C2, amended: when a list that starts with a verb is allowed (with or
    without warning), the verb is kept exactly when no help flag follows
    and the sentinel is not right behind the verb; otherwise no verb is
    kept. *)
Theorem verb_retained_by_table_only (v : string) (rest : list string) :
  verb_pattern_test v = true ->
  decision (classify (v :: rest)) <> Reject ->
  recognizedVerb (classify (v :: rest)) =
  if has_help_flag rest || at_is rest 0 RUSH_SKIP_CHECKS_PARAMETER
  then None else Some v.
Proof.
  intros Hv. rewrite classify_verb by assumption.
  destruct (has_help_flag rest); [reflexivity|].
  destruct (at_is rest 0 RUSH_SKIP_CHECKS_PARAMETER); [reflexivity|].
  destruct (includes rest RUSH_SKIP_CHECKS_PARAMETER); simpl; [congruence|].
  reflexivity.
Qed.

Lemma verb_retained_by_table_only_witness :
  recognizedVerb (classify ["patch-commit"; "lodash@4.17.21"]) = Some "patch-commit" /\
  recognizedVerb (classify ["up"; "--rush-skip-checks"; "-r"]) = None.
Proof.
  split.
  - apply (verb_retained_by_table_only "patch-commit" ["lodash@4.17.21"]).
    + reflexivity.
    + vm_compute. discriminate.
  - apply (verb_retained_by_table_only "up" ["--rush-skip-checks"; "-r"]).
    + reflexivity.
    + vm_compute. discriminate.
Defined.

(** ** [_validatePnpmUsage] inside a parser

    The call reads nothing of the state: it completes as in a fresh
    parser, appends its lines to the log and sets [_commandName] when the
    fresh run sets it. *)
Lemma validatePnpmUsage_frame (pnpmArgs : list string) (st : State) :
  _validatePnpmUsage pnpmArgs st =
  let r := _validatePnpmUsage pnpmArgs (fresh None (fun _ => false)) in
  ({| _rushConfiguration := _rushConfiguration st;
      _pnpmArgs := _pnpmArgs st;
      _commandName :=
        match _commandName (fst r) with
        | Some v => Some v
        | None => _commandName st
        end;
      process_exitCode := process_exitCode st;
      files := files st;
      log := log st ++ log (fst r) |}, snd r).
Proof.
  unfold _validatePnpmUsage.
  repeat match goal with
         | |- context [if ?b then _ else _] => destruct b
         | |- context [match ?l with [] => _ | _ :: _ => _ end] => destruct l
         end;
    destruct st; cbn; rewrite ?List.app_nil_r, <- ?List.app_assoc; reflexivity.
Qed.

(** ** After the child: exit status and synchronisation *)

#[local] Arguments commonTempPnpmPatchesFolder : simpl never.
#[local] Arguments rushPnpmPatchesFolder : simpl never.
#[local] Arguments pnpmEnvironmentMap : simpl never.

Lemma postExecute_log (st : State) (c : RushConfiguration) :
  _rushConfiguration st = Some c ->
  log (fst (_postExecute st)) =
  log st ++
  if decide (_commandName st = Some "patch-commit")
  then patch_commit_sync c (files st (commonTempPnpmPatchesFolder c))
  else [].
Proof.
  intros Hc. unfold _postExecute, bind, get, FileSystem_exists, bind, get. cbn.
  destruct (_commandName st) as [name|] eqn:Hn.
  - destruct (String.eqb name "patch-commit") eqn:E.
    + apply String.eqb_eq in E. subst name. cbn. rewrite Hc. cbn.
      rewrite decide_True by reflexivity. unfold patch_commit_sync.
      destruct (files st (commonTempPnpmPatchesFolder c)); cbn;
        rewrite <- ?List.app_assoc; reflexivity.
    + apply String.eqb_neq in E.
      rewrite decide_False by congruence.
      destruct (truthy name); cbn; now rewrite List.app_nil_r.
  - rewrite decide_False by discriminate. cbn. now rewrite List.app_nil_r.
Qed.

(** [process.exitCode = 1; this._execute();] without a configuration:
    nothing happens but the reset of the exit status. *)
Lemma execute_without_configuration (h : Host) (st : State) :
  _rushConfiguration st = None ->
  log (fst (execute h st)) = log st /\
  process_exitCode (fst (execute h st)) = Some 1 /\
  log (fst ((set_exitCode 1 ;; _execute h) st)) = log st.
Proof.
  intros Hc. unfold execute, _execute, bind, get, set_exitCode. cbn.
  rewrite Hc. cbn. auto.
Qed.

(** The same two statements with a configuration: one spawn, the exit
    status from its result, the files as the child left them. *)
Lemma invoke_with_configuration (h : Host) (st : State) (c : RushConfiguration) :
  _rushConfiguration st = Some c ->
  let st' := fst ((set_exitCode 1 ;; _execute h) st) in
  _rushConfiguration st' = Some c /\
  _pnpmArgs st' = _pnpmArgs st /\
  _commandName st' = _commandName st /\
  process_exitCode st' = Some (exit_status_of (fst (spawn_answer h st c))) /\
  files st' = snd (spawn_answer h st c) /\
  log st' = log st ++ [spawn_event h st c].
Proof.
  intros Hc. unfold _execute, bind, get, set_exitCode, set_files, emit,
    exit_status_of, spawn_answer, spawn_event. cbn.
  rewrite Hc. cbn.
  destruct (Executable_spawnSync h _ _ _ _) as [[err stat] fs']. cbn.
  destruct err as [e|]; [cbn; auto 10|].
  destruct stat as [code|]; cbn; auto 10.
Qed.

(** [execute] is those two statements, then [_postExecute] when the exit
    status is 0. *)
Lemma execute_with_configuration (h : Host) (st : State) (c : RushConfiguration) :
  _rushConfiguration st = Some c ->
  let st' := fst ((set_exitCode 1 ;; _execute h) st) in
  fst (execute h st) =
  if decide (process_exitCode st' = Some 0) then fst (_postExecute st') else st'.
Proof.
  intros Hc. unfold execute, _execute, bind, get, set_exitCode, set_files, emit. cbn.
  rewrite Hc. cbn.
  destruct (Executable_spawnSync h _ _ _ _) as [[err stat] fs']. cbn.
  destruct err as [e|]; [cbn; rewrite decide_False by discriminate; reflexivity|].
  destruct stat as [code|]; cbn; [|rewrite decide_False by discriminate; reflexivity].
  destruct code; cbn.
  - rewrite decide_True by reflexivity. reflexivity.
  - rewrite decide_False by discriminate. reflexivity.
  - rewrite decide_False by discriminate. reflexivity.
Qed.

Lemma postExecute_keeps_exitCode (st : State) :
  process_exitCode (fst (_postExecute st)) = process_exitCode st.
Proof.
  unfold _postExecute, bind, get, FileSystem_exists, bind, get. cbn.
  destruct (_commandName st) as [name|]; [|reflexivity].
  destruct (truthy name); [|reflexivity]. cbn.
  destruct (String.eqb name "patch-commit"); [|reflexivity].
  destruct (_rushConfiguration st) as [c|]; [|reflexivity]. cbn.
  destruct (files st (commonTempPnpmPatchesFolder c)); reflexivity.
Qed.

(** C5: [execute] leaves the child's exit code when the spawn reports no
    error and a status, and the sentinel 1 otherwise, whatever the exit
    status was before. *)
Theorem exit_status_protocol (h : Host) (st : State) :
  process_exitCode (fst (execute h st)) =
  match _rushConfiguration st with
  | None => Some 1
  | Some c =>
      match error (fst (spawn_answer h st c)), status (fst (spawn_answer h st c)) with
      | None, Some code => Some code
      | _, _ => Some 1
      end
  end.
Proof.
  destruct (_rushConfiguration st) as [c|] eqn:Hc.
  - rewrite (execute_with_configuration h st c Hc).
    destruct (invoke_with_configuration h st c Hc) as (_ & _ & _ & He & _).
    assert (Hx : process_exitCode
                   (if decide (process_exitCode (fst ((set_exitCode 1 ;; _execute h) st)) = Some 0)
                    then fst (_postExecute (fst ((set_exitCode 1 ;; _execute h) st)))
                    else fst ((set_exitCode 1 ;; _execute h) st)) =
                 Some (exit_status_of (fst (spawn_answer h st c)))).
    { case_decide; [rewrite postExecute_keeps_exitCode|]; exact He. }
    rewrite Hx. unfold exit_status_of.
    destruct (error (fst (spawn_answer h st c))); [reflexivity|].
    destruct (status (fst (spawn_answer h st c))); reflexivity.
  - now destruct (execute_without_configuration h st Hc) as (_ & -> & _).
Qed.

(** C6: after the spawn, [execute] touches the file system only when the
    exit status is 0 and the kept verb is [patch-commit]: it probes the
    temporary patches folder and, when the folder is there, copies it and
    then syncs the lockfile.  In every other case the log ends with the
    spawn. *)
Theorem post_invocation_sync (h : Host) (st : State) :
  let spawned := fst ((set_exitCode 1 ;; _execute h) st) in
  log (fst (execute h st)) =
  log spawned ++
  match _rushConfiguration st with
  | Some c =>
      if decide (process_exitCode spawned = Some 0 /\
                 _commandName st = Some "patch-commit")
      then
        Exists (commonTempPnpmPatchesFolder c) ::
        if files spawned (commonTempPnpmPatchesFolder c) then
          [CopyFiles (commonTempPnpmPatchesFolder c) (rushPnpmPatchesFolder c);
           SyncFile (tempShrinkwrapFilename c) (getCommittedShrinkwrapFilename c);
           Terminal WarningLine PATCHES_REFRESHED]
        else []
      else []
  | None => []
  end.
Proof.
  intros spawned. destruct (_rushConfiguration st) as [c|] eqn:Hc.
  - rewrite (execute_with_configuration h st c Hc). fold spawned.
    destruct (invoke_with_configuration h st c Hc) as (Hc' & _ & Hn & _).
    fold spawned in Hc', Hn.
    destruct (decide (process_exitCode spawned = Some 0)) as [H0|H0].
    + rewrite (postExecute_log spawned c Hc'), Hn.
      destruct (decide (_commandName st = Some "patch-commit")) as [Hv|Hv].
      * rewrite decide_True by (split; assumption). reflexivity.
      * rewrite decide_False by tauto. reflexivity.
    + rewrite decide_False by tauto. now rewrite List.app_nil_r.
  - subst spawned.
    destruct (execute_without_configuration h st Hc) as (-> & _ & ->).
    now rewrite List.app_nil_r.
Qed.

(** ** The environment merge *)

Section EnvironmentMerge.

Implicit Types (m env : gmap string string)
               (vars : list (string * IConfigurationEnvironmentVariable))
               (e : IConfigurationEnvironmentVariable) (k : string).

Lemma pnpmEnvironmentMap_loop env (c : RushConfiguration) :
  pnpmEnvironmentMap env c = foldl apply_environmentVariable (preset env c) (declared c).
Proof.
  unfold pnpmEnvironmentMap, preset, declared.
  destruct (environmentVariables (pnpmOptions c)); reflexivity.
Qed.

Lemma preset_workspace_dir env (c : RushConfiguration) :
  preset env c !! "NPM_CONFIG_WORKSPACE_DIR" = Some (commonTempFolder c).
Proof.
  unfold preset, EnvironmentMap_set. destruct (pnpmStorePath (pnpmOptions c)) as [p|].
  - destruct (truthy p).
    + rewrite lookup_insert_ne by discriminate. apply lookup_insert_eq.
    + apply lookup_insert_eq.
  - apply lookup_insert_eq.
Qed.

Lemma preset_not_reserved env (c : RushConfiguration) k :
  ~ In k (reserved c) -> preset env c !! k = env !! k.
Proof.
  unfold preset, reserved, EnvironmentMap_set. intros Hk.
  destruct (pnpmStorePath (pnpmOptions c)) as [p|]; [destruct (truthy p)|];
    simpl in Hk; rewrite ?lookup_insert_ne by (intros <-; tauto); reflexivity.
Qed.

(** One round of the loop, seen from a name. *)
Lemma apply_environmentVariable_other m (x : string * IConfigurationEnvironmentVariable) k :
  fst x <> k -> apply_environmentVariable m x !! k = m !! k.
Proof.
  intros Hne. unfold apply_environmentVariable, EnvironmentMap_set, EnvironmentMap_get.
  destruct (override (snd x)); [now rewrite lookup_insert_ne|].
  destruct (m !! fst x); [reflexivity | now rewrite lookup_insert_ne].
Qed.

Lemma apply_environmentVariable_same m k e :
  apply_environmentVariable m (k, e) !! k =
  Some (if override e then value e else default (value e) (m !! k)).
Proof.
  unfold apply_environmentVariable, EnvironmentMap_set, EnvironmentMap_get. simpl.
  destruct (override e); [apply lookup_insert_eq|].
  destruct (m !! k) eqn:E; [exact E | apply lookup_insert_eq].
Qed.

(** The whole loop, seen from a name that no entry declares. *)
Lemma loop_not_declared vars m k :
  ~ In k (map fst vars) ->
  foldl apply_environmentVariable m vars !! k = m !! k.
Proof.
  revert m. induction vars as [|x vars IH]; intros m Hk; simpl; [reflexivity|].
  simpl in Hk. rewrite IH by tauto.
  apply apply_environmentVariable_other. tauto.
Qed.

(** The whole loop, seen from a declared name.  The entries come from a
    JavaScript object, so no name is declared twice. *)
Lemma loop_declared vars m k e :
  NoDup (map fst vars) ->
  In (k, e) vars ->
  foldl apply_environmentVariable m vars !! k =
  Some (if override e then value e else default (value e) (m !! k)).
Proof.
  revert m. induction vars as [|x vars IH]; intros m Hnd Hin; [destruct Hin|].
  simpl in Hnd. apply NoDup_cons in Hnd as [Hx Hnd].
  rewrite list_elem_of_In in Hx.
  destruct Hin as [-> | Hin]; simpl.
  - simpl in Hx. rewrite loop_not_declared by exact Hx.
    apply apply_environmentVariable_same.
  - assert (Hne : fst x <> k).
    { intros <-. apply Hx.
      change (fst x) with (fst (fst x, e)). now apply in_map. }
    rewrite IH by assumption.
    now rewrite apply_environmentVariable_other.
Qed.

(** The merged environment at a declared name: the override when the
    flag is set or nothing is in place; what is in place otherwise. *)
Lemma pnpmEnvironmentMap_declared env (c : RushConfiguration) k e :
  NoDup (map fst (declared c)) ->
  In (k, e) (declared c) ->
  pnpmEnvironmentMap env c !! k =
  Some (if override e then value e else default (value e) (preset env c !! k)).
Proof.
  intros Hnd Hin. rewrite pnpmEnvironmentMap_loop. now apply loop_declared.
Qed.

End EnvironmentMerge.

(** Closed lists of names without repetition. *)
Ltac distinct_names :=
  repeat (apply NoDup_cons; split;
          [rewrite list_elem_of_In; simpl; intuition discriminate |]);
  apply NoDup_nil; exact I.

(** C4, as stated, fails: the base environment defines
    [NPM_CONFIG_WORKSPACE_DIR], the declared entry does not override, and
    still the base value is gone. *)
Lemma base_value_of_workspace_dir_not_preserved :
  In ("NPM_CONFIG_WORKSPACE_DIR", {| value := "override"; override := false |})
     (declared (example_configuration None
        (Some [("NPM_CONFIG_WORKSPACE_DIR", {| value := "override"; override := false |})]))) /\
  ({[ "NPM_CONFIG_WORKSPACE_DIR" := "base" ]} : gmap string string)
    !! "NPM_CONFIG_WORKSPACE_DIR" = Some "base" /\
  pnpmEnvironmentMap {[ "NPM_CONFIG_WORKSPACE_DIR" := "base" ]}
    (example_configuration None
       (Some [("NPM_CONFIG_WORKSPACE_DIR", {| value := "override"; override := false |})]))
    !! "NPM_CONFIG_WORKSPACE_DIR" = Some "/repo/common/temp" /\
  Some "/repo/common/temp" <> Some "base".
Proof.
  split; [left; reflexivity|].
  split; [vm_compute; reflexivity|].
  split; [vm_compute; reflexivity | discriminate].
Qed.

(** C4, amended: for a declared name that is not one of the wrapper's own,
    the base value stays when the flag is off and the base environment
    defines the name; otherwise the declared value wins. *)
Theorem environment_merge
    (env : gmap string string) (c : RushConfiguration)
    (k : string) (e : IConfigurationEnvironmentVariable) :
  NoDup (map fst (declared c)) ->
  In (k, e) (declared c) ->
  ~ In k (reserved c) ->
  pnpmEnvironmentMap env c !! k =
  Some (if override e then value e
        else match env !! k with
             | Some base => base
             | None => value e
             end).
Proof.
  intros Hnd Hin Hk.
  rewrite (pnpmEnvironmentMap_declared env c k e Hnd Hin).
  rewrite (preset_not_reserved env c k Hk).
  destruct (env !! k); reflexivity.
Qed.

Lemma environment_merge_witness :
  pnpmEnvironmentMap {[ "KEY" := "base" ]}
    (example_configuration (Some "/store")
       (Some [("KEY", {| value := "override"; override := false |});
              ("OTHER", {| value := "fresh"; override := false |})]))
    !! "KEY" = Some "base" /\
  pnpmEnvironmentMap {[ "KEY" := "base" ]}
    (example_configuration (Some "/store")
       (Some [("KEY", {| value := "override"; override := true |})]))
    !! "KEY" = Some "override".
Proof.
  split.
  - refine (eq_trans (environment_merge {[ "KEY" := "base" ]}
             (example_configuration (Some "/store")
                (Some [("KEY", {| value := "override"; override := false |});
                       ("OTHER", {| value := "fresh"; override := false |})]))
             "KEY" {| value := "override"; override := false |} _ _ _) _).
    4: vm_compute; reflexivity.
    + distinct_names.
    + left; reflexivity.
    + simpl. intros [H|[H|H]]; [discriminate H | discriminate H | exact H].
  - refine (eq_trans (environment_merge {[ "KEY" := "base" ]}
             (example_configuration (Some "/store")
                (Some [("KEY", {| value := "override"; override := true |})]))
             "KEY" {| value := "override"; override := true |} _ _ _) _).
    4: vm_compute; reflexivity.
    + distinct_names.
    + left; reflexivity.
    + simpl. intros [H|[H|H]]; [discriminate H | discriminate H | exact H].
Defined.

(** C10: [NPM_CONFIG_WORKSPACE_DIR] is in place before the loop, whatever
    the parent environment holds.  A declared entry for it replaces the
    workspace folder when its flag is on and does nothing when its flag is
    off; with no declared entry the workspace folder stays. *)
Theorem workspace_dir_set_before_declared
    (env : gmap string string) (c : RushConfiguration) :
  NoDup (map fst (declared c)) ->
  preset env c !! "NPM_CONFIG_WORKSPACE_DIR" = Some (commonTempFolder c) /\
  (forall e, In ("NPM_CONFIG_WORKSPACE_DIR", e) (declared c) ->
     pnpmEnvironmentMap env c !! "NPM_CONFIG_WORKSPACE_DIR" =
     Some (if override e then value e else commonTempFolder c)) /\
  (~ In "NPM_CONFIG_WORKSPACE_DIR" (map fst (declared c)) ->
     pnpmEnvironmentMap env c !! "NPM_CONFIG_WORKSPACE_DIR" =
     Some (commonTempFolder c)).
Proof.
  intros Hnd. split; [apply preset_workspace_dir|]. split.
  - intros e Hin.
    rewrite (pnpmEnvironmentMap_declared env c _ e Hnd Hin).
    now rewrite preset_workspace_dir.
  - intros Hout. rewrite pnpmEnvironmentMap_loop.
    rewrite loop_not_declared by exact Hout. apply preset_workspace_dir.
Qed.

Lemma workspace_dir_set_before_declared_witness :
  pnpmEnvironmentMap ∅
    (example_configuration None
       (Some [("NPM_CONFIG_WORKSPACE_DIR", {| value := "/elsewhere"; override := false |})]))
    !! "NPM_CONFIG_WORKSPACE_DIR" = Some "/repo/common/temp".
Proof.
  refine (proj1 (proj2 (workspace_dir_set_before_declared ∅
            (example_configuration None
               (Some [("NPM_CONFIG_WORKSPACE_DIR",
                       {| value := "/elsewhere"; override := false |})])) _))
            {| value := "/elsewhere"; override := false |} _).
  - distinct_names.
  - left; reflexivity.
Defined.

(** ** From the constructor to the spawn *)

#[local] Arguments path_join : simpl never.

(** [_validatePnpmUsage] only writes on the terminal, and the only
    exception it throws is [AlreadyReportedError]. *)
Lemma validatePnpmUsage_effects (pnpmArgs : list string) (st : State) :
  spawns (log (fst (_validatePnpmUsage pnpmArgs st))) = spawns (log st) /\
  (forall e, snd (_validatePnpmUsage pnpmArgs st) = Throw e -> e = AlreadyReportedError).
Proof.
  unfold _validatePnpmUsage.
  repeat match goal with
         | |- context [if ?b then _ else _] => destruct b
         | |- context [match ?l with [] => _ | _ :: _ => _ end] => destruct l
         end;
    cbn; unfold spawns; rewrite ?List.filter_app; cbn; rewrite ?List.app_nil_r;
    (split; [reflexivity | intros e H; congruence]).
Qed.

(** The parser that the constructor leaves behind in a ready workspace:
    the classification decides its fields, and nothing was spawned. *)
Lemma new_parser_ready (h : Host) (fs : string -> bool) (c : RushConfiguration)
    (exitCode : option Z) :
  ready h fs c ->
  let parser := new_RushPnpmCommandLineParser h exitCode fs in
  let cl := classify (slice_2 (process_argv h)) in
  _rushConfiguration parser = Some c /\
  _commandName parser = recognizedVerb cl /\
  _pnpmArgs parser =
    match decision cl with
    | Reject => None
    | _ => Some (resulting cl)
    end /\
  process_exitCode parser = exitCode /\
  files parser = fs /\
  spawns (log parser) = [].
Proof.
  intros (Hj & Hpm & Huw & Hf1 & Hf2).
  unfold new_RushPnpmCommandLineParser, constructor_try. rewrite Hj.
  unfold bind, set_rushConfiguration, FileSystem_exists, bind, emit, get, fresh.
  cbn. rewrite Hpm, Huw. cbn. rewrite Hf1. cbn. rewrite Hf2. cbn.
  pose proof (validatePnpmUsage_effects (slice_2 (process_argv h))
                (fresh None (fun _ => false))) as [Hs He].
  rewrite validatePnpmUsage_frame. unfold classify.
  destruct (_validatePnpmUsage (slice_2 (process_argv h)) (fresh None (fun _ => false)))
    as [st' [args'|e]]; cbn in *.
  - unfold spawns in *. rewrite ?List.filter_app, ?Hs.
    destruct (_commandName st'); destruct (existsb is_warning (log st')); cbn; auto 10.
  - rewrite (He e eq_refl). cbn.
    unfold spawns in *. rewrite ?List.filter_app, ?Hs.
    destruct (_commandName st'); cbn; auto 10.
Qed.

Lemma spawns_patch_commit_sync (c : RushConfiguration) (present : bool) :
  spawns (patch_commit_sync c present) = [].
Proof. destruct present; reflexivity. Qed.

(** With a configuration in the parser, [execute] calls the subprocess
    service exactly once, with whatever [_pnpmArgs] holds. *)
Lemma execute_spawns_once (h : Host) (st : State) (c : RushConfiguration) :
  _rushConfiguration st = Some c ->
  spawns (log (fst (execute h st))) = spawns (log st) ++ [spawn_event h st c].
Proof.
  intros Hc. rewrite (execute_with_configuration h st c Hc).
  destruct (invoke_with_configuration h st c Hc) as (Hc' & _ & _ & _ & _ & Hl).
  assert (Hs : spawns (log (fst ((set_exitCode 1 ;; _execute h) st))) =
               spawns (log st) ++ [spawn_event h st c]).
  { rewrite Hl. unfold spawns. now rewrite List.filter_app. }
  case_decide; [|exact Hs].
  rewrite (postExecute_log _ c Hc'). unfold spawns in *.
  rewrite List.filter_app, Hs.
  case_decide; [|now rewrite List.app_nil_r].
  fold (spawns (patch_commit_sync c
          (files (fst ((set_exitCode 1 ;; _execute h) st)) (commonTempPnpmPatchesFolder c)))).
  rewrite spawns_patch_commit_sync. now rewrite List.app_nil_r.
Qed.

(** In a ready workspace a rejected argument list does not stop the
    invocation: the constructor swallows the rejection, leaves
    [_pnpmArgs] undefined, and [execute] spawns PNPM all the same. *)
Lemma rejected_arguments_reach_spawn
    (h : Host) (fs : string -> bool) (c : RushConfiguration) :
  ready h fs c ->
  decision (classify (slice_2 (process_argv h))) = Reject ->
  spawns (log (fst (launch h fs))) =
  [SpawnSync (packageManagerToolFilename c) None
             (pnpmEnvironmentMap (process_env h) c)].
Proof.
  intros Hready Hrej. unfold launch.
  destruct (new_parser_ready h fs c None Hready) as (Hc & _ & Ha & _ & _ & Hs).
  rewrite Hrej in Ha.
  rewrite (execute_spawns_once h _ c Hc), Hs. unfold spawn_event.
  now rewrite Ha.
Qed.

(** An allowed list reaches the spawn as the classification left it. *)
Lemma allowed_arguments_reach_spawn
    (h : Host) (fs : string -> bool) (c : RushConfiguration) :
  ready h fs c ->
  decision (classify (slice_2 (process_argv h))) <> Reject ->
  spawns (log (fst (launch h fs))) =
  [SpawnSync (packageManagerToolFilename c)
             (Some (resulting (classify (slice_2 (process_argv h)))))
             (pnpmEnvironmentMap (process_env h) c)].
Proof.
  intros Hready Hok. unfold launch.
  destruct (new_parser_ready h fs c None Hready) as (Hc & _ & Ha & _ & _ & Hs).
  rewrite (execute_spawns_once h _ c Hc), Hs. unfold spawn_event.
  rewrite Ha. destruct (decision (classify (slice_2 (process_argv h))));
    [reflexivity | reflexivity | congruence].
Qed.

(** C1, on the code: [rush-pnpm install] in a ready workspace.  The
    classification rejects the list, and the subprocess service is called
    nevertheless, with no argument list. *)
Theorem rejected_install_is_spawned :
  ready (example_host ["install"]) (fun _ => true) (example_configuration None None) /\
  decision (classify ["install"]) = Reject /\
  spawns (log (fst (launch (example_host ["install"]) (fun _ => true)))) =
  [SpawnSync "/repo/common/temp/pnpm-local/node_modules/.bin/pnpm" None
     (pnpmEnvironmentMap ∅ (example_configuration None None))].
Proof.
  split; [repeat split |].
  split; vm_compute; reflexivity.
Qed.

(** * Further properties *)

(** ** The classification of an arbitrary list *)

Lemma has_help_flag_unfold (l : list string) :
  includes l "-h" || includes l "--help" || includes l "-?" = has_help_flag l.
Proof. reflexivity. Qed.

(** [classify] follows the checks of the source, one after the other. *)
Lemma classify_rules_correct (pnpmArgs : list string) :
  classify pnpmArgs = classify_rules pnpmArgs.
Proof.
  unfold classify, classify_rules, _validatePnpmUsage, is_version_flag.
  destruct (at_is pnpmArgs 0 RUSH_SKIP_CHECKS_PARAMETER); [reflexivity|].
  destruct pnpmArgs as [|firstArg rest]; [reflexivity|].
  rewrite has_help_flag_unfold.
  destruct (has_help_flag (firstArg :: rest)); [reflexivity|].
  destruct ((length (firstArg :: rest) =? 1)%nat &&
            (String.eqb firstArg "-v" || String.eqb firstArg "--version"));
    [reflexivity|].
  destruct (verb_pattern_test firstArg); cbn [negb]; [|reflexivity].
  destruct (at_is (firstArg :: rest) 1 RUSH_SKIP_CHECKS_PARAMETER); [reflexivity|].
  destruct (0 <=? indexOf (firstArg :: rest) RUSH_SKIP_CHECKS_PARAMETER); [reflexivity|].
  unfold verb_policy.
  destruct (includes BLOCKED firstArg); [reflexivity|].
  destruct (includes INSTALL_COMMANDS firstArg); [reflexivity|].
  destruct (includes WARNING_COMMANDS firstArg); [reflexivity|].
  destruct (includes KNOWN_SAFE firstArg); reflexivity.
Qed.

Lemma all_verb_tail_Forall (s : string) :
  all_verb_tail s = true <->
  Forall (fun a => is_verb_tail a = true) (list_ascii_of_string s).
Proof.
  induction s as [|c s IH]; simpl.
  - split; [constructor | reflexivity].
  - rewrite andb_true_iff, Forall_cons, IH. reflexivity.
Qed.

(** X1: the verb pattern accepts exactly the strings made of a lowercase
    letter followed by lowercase letters, digits and hyphens. *)
Theorem verb_pattern_accepts (s : string) :
  verb_pattern_test s = true <->
  exists c rest,
    s = String c rest /\
    is_lower c = true /\
    Forall (fun a => is_verb_tail a = true) (list_ascii_of_string rest).
Proof.
  rewrite verb_pattern_test_spec. split.
  - intros (c & rest & Hs & Hc & Ht). exists c, rest.
    split; [exact Hs|]. split; [exact Hc|]. now apply all_verb_tail_Forall.
  - intros (c & rest & Hs & Hc & Ht). exists c, rest.
    split; [exact Hs|]. split; [exact Hc|]. now apply all_verb_tail_Forall.
Qed.

(** X2: a help flag anywhere in a list that does not start with the
    sentinel lets the list through as it is, whatever its first token,
    and no verb is kept. *)
Theorem help_flag_allows_any_list (pnpmArgs : list string) :
  at_is pnpmArgs 0 RUSH_SKIP_CHECKS_PARAMETER = false ->
  has_help_flag pnpmArgs = true ->
  classify pnpmArgs =
  {| decision := Allow; resulting := pnpmArgs; recognizedVerb := None |}.
Proof.
  intros H0 Hh. rewrite classify_rules_correct. unfold classify_rules.
  rewrite H0. destruct pnpmArgs as [|firstArg rest]; [reflexivity|].
  now rewrite Hh.
Qed.

Lemma help_flag_allows_any_list_witness :
  classify ["import"; "--frozen"; "--rush-skip-checks"; "-?"] =
  {| decision := Allow;
     resulting := ["import"; "--frozen"; "--rush-skip-checks"; "-?"];
     recognizedVerb := None |}.
Proof.
  apply (help_flag_allows_any_list ["import"; "--frozen"; "--rush-skip-checks"; "-?"]);
    reflexivity.
Defined.

(** X3: a first token that is neither a verb nor the sentinel, in a list
    without help flag, is rejected, except for a version flag that stands
    alone. *)
Theorem unparseable_leading_token (firstArg : string) (rest : list string) :
  verb_pattern_test firstArg = false ->
  String.eqb firstArg RUSH_SKIP_CHECKS_PARAMETER = false ->
  has_help_flag (firstArg :: rest) = false ->
  classify (firstArg :: rest) =
  {| decision :=
       if (length rest =? 0)%nat && is_version_flag firstArg then Allow else Reject;
     resulting := firstArg :: rest;
     recognizedVerb := None |}.
Proof.
  intros Hv Hs Hh. rewrite classify_rules_correct. unfold classify_rules.
  change (at_is (firstArg :: rest) 0 RUSH_SKIP_CHECKS_PARAMETER)
    with (String.eqb firstArg RUSH_SKIP_CHECKS_PARAMETER).
  rewrite Hs, Hh, Hv.
  change (length (firstArg :: rest) =? 1)%nat with (length rest =? 0)%nat.
  destruct ((length rest =? 0)%nat && is_version_flag firstArg); reflexivity.
Qed.

Lemma unparseable_leading_token_witness :
  classify ["-v"; "--json"] =
  {| decision := Reject; resulting := ["-v"; "--json"]; recognizedVerb := None |} /\
  classify ["--version"] =
  {| decision := Allow; resulting := ["--version"]; recognizedVerb := None |} /\
  classify ["Install"; "lodash"] =
  {| decision := Reject; resulting := ["Install"; "lodash"]; recognizedVerb := None |}.
Proof.
  split; [|split].
  - apply (unparseable_leading_token "-v" ["--json"]); reflexivity.
  - apply (unparseable_leading_token "--version" []); reflexivity.
  - apply (unparseable_leading_token "Install" ["lodash"]); reflexivity.
Defined.

(** The decisions of the table, label group by label group. *)
Lemma verb_policy_warning (v : string) :
  verb_policy v = AllowWithWarning <-> In v WARNING_COMMANDS.
Proof.
  split.
  - unfold verb_policy.
    destruct (includes BLOCKED v); [discriminate|].
    destruct (includes INSTALL_COMMANDS v); [discriminate|].
    destruct (includes WARNING_COMMANDS v) eqn:E; [intros _; now apply includes_In|].
    destruct (includes KNOWN_SAFE v); discriminate.
  - intros H. now apply warning_commands_policy.
Qed.

Lemma verb_policy_allow (v : string) :
  verb_policy v = Allow <-> In v KNOWN_SAFE.
Proof.
  split.
  - unfold verb_policy.
    destruct (includes BLOCKED v); [discriminate|].
    destruct (includes INSTALL_COMMANDS v); [discriminate|].
    destruct (includes WARNING_COMMANDS v); [discriminate|].
    destruct (includes KNOWN_SAFE v) eqn:E; [intros _; now apply includes_In|].
    discriminate.
  - intros H. now apply known_safe_policy.
Qed.

(** X4: the table is an allow-list.  A verb with neither help flag nor
    sentinel behind it passes exactly when it is one of the labels of the
    warning group or of the known-safe group; every other verb is
    rejected, and in both cases the verb has been kept. *)
Theorem verb_table_is_an_allow_list (v : string) (rest : list string) :
  verb_pattern_test v = true ->
  has_help_flag rest = false ->
  ~ In RUSH_SKIP_CHECKS_PARAMETER rest ->
  (decision (classify (v :: rest)) <> Reject <->
   In v (WARNING_COMMANDS ++ KNOWN_SAFE)) /\
  recognizedVerb (classify (v :: rest)) = Some v.
Proof.
  intros Hv Hh Hs. rewrite classify_table by assumption. cbn [decision recognizedVerb].
  split; [|reflexivity].
  rewrite in_app_iff, <- verb_policy_warning, <- verb_policy_allow.
  destruct (verb_policy v).
  - split; [intros _; now right | discriminate].
  - split; [intros _; now left | discriminate].
  - split; [congruence | intros [H | H]; discriminate H].
Qed.

Lemma verb_table_is_an_allow_list_witness :
  (decision (classify ["dlx"; "cowsay"]) <> Reject <->
   In "dlx" (WARNING_COMMANDS ++ KNOWN_SAFE)) /\
  recognizedVerb (classify ["dlx"; "cowsay"]) = Some "dlx".
Proof.
  apply (verb_table_is_an_allow_list "dlx" ["cowsay"]).
  - reflexivity.
  - reflexivity.
  - intros [H | H]; [discriminate H | exact H].
Defined.

Lemma at_is_1_inv (l : list string) (x : string) :
  at_is l 1 x = true -> exists y l', l = y :: x :: l'.
Proof.
  destruct l as [|y [|z l']]; try discriminate.
  unfold at_is. simpl. intros H. apply String.eqb_eq in H. subst. eauto.
Qed.

(** X5: the classification takes at most one token out of the list, and
    only the sentinel, from the first or the second place; when it does,
    the list is allowed and no verb is kept. *)
Theorem classification_removes_only_the_sentinel (pnpmArgs : list string) :
  resulting (classify pnpmArgs) = pnpmArgs \/
  exists i : nat,
    (i < 2)%nat /\
    pnpmArgs !! i = Some RUSH_SKIP_CHECKS_PARAMETER /\
    resulting (classify pnpmArgs) = delete i pnpmArgs /\
    decision (classify pnpmArgs) = Allow /\
    recognizedVerb (classify pnpmArgs) = None.
Proof.
  rewrite classify_rules_correct. unfold classify_rules.
  destruct (at_is pnpmArgs 0 RUSH_SKIP_CHECKS_PARAMETER) eqn:H0.
  { right. exists 0%nat. destruct pnpmArgs as [|y l]; [discriminate H0|].
    apply at_is_0_inv in H0. injection H0 as ->.
    repeat split. lia. }
  destruct pnpmArgs as [|firstArg rest]; [now left|].
  destruct (has_help_flag (firstArg :: rest)); [now left|].
  destruct ((length (firstArg :: rest) =? 1)%nat && is_version_flag firstArg); [now left|].
  destruct (negb (verb_pattern_test firstArg)); [now left|].
  destruct (at_is (firstArg :: rest) 1 RUSH_SKIP_CHECKS_PARAMETER) eqn:H1.
  { right. exists 1%nat. apply at_is_1_inv in H1 as (y & l' & Heq).
    rewrite Heq. repeat split. lia. }
  destruct (0 <=? indexOf (firstArg :: rest) RUSH_SKIP_CHECKS_PARAMETER); now left.
Qed.

(** X6: what a kept verb stands for.  When [_commandName] is assigned,
    the verb is the first token of the list and matches the pattern, the
    list holds neither help flag nor sentinel and is left as it was, and
    the decision is the one of the table. *)
Theorem kept_verb_invariant (pnpmArgs : list string) (v : string) :
  recognizedVerb (classify pnpmArgs) = Some v ->
  exists rest,
    pnpmArgs = v :: rest /\
    verb_pattern_test v = true /\
    has_help_flag pnpmArgs = false /\
    ~ In RUSH_SKIP_CHECKS_PARAMETER pnpmArgs /\
    resulting (classify pnpmArgs) = pnpmArgs /\
    decision (classify pnpmArgs) = verb_policy v.
Proof.
  rewrite classify_rules_correct. unfold classify_rules.
  destruct (at_is pnpmArgs 0 RUSH_SKIP_CHECKS_PARAMETER); [discriminate|].
  destruct pnpmArgs as [|firstArg rest]; [discriminate|].
  destruct (has_help_flag (firstArg :: rest)) eqn:Hh; [discriminate|].
  destruct ((length (firstArg :: rest) =? 1)%nat && is_version_flag firstArg); [discriminate|].
  destruct (verb_pattern_test firstArg) eqn:Hv; cbn [negb]; [|discriminate].
  destruct (at_is (firstArg :: rest) 1 RUSH_SKIP_CHECKS_PARAMETER); [discriminate|].
  destruct (0 <=? indexOf (firstArg :: rest) RUSH_SKIP_CHECKS_PARAMETER) eqn:Hi;
    [discriminate|].
  cbn [recognizedVerb resulting decision]. intros [= <-]. exists rest.
  repeat split; try assumption.
  intros Hin. apply indexOf_In in Hin. congruence.
Qed.

Lemma kept_verb_invariant_witness :
  exists rest,
    ["rm"; "lodash"; "-r"] = "rm" :: rest /\
    verb_pattern_test "rm" = true /\
    has_help_flag ["rm"; "lodash"; "-r"] = false /\
    ~ In RUSH_SKIP_CHECKS_PARAMETER ["rm"; "lodash"; "-r"] /\
    resulting (classify ["rm"; "lodash"; "-r"]) = ["rm"; "lodash"; "-r"] /\
    decision (classify ["rm"; "lodash"; "-r"]) = verb_policy "rm".
Proof. apply (kept_verb_invariant ["rm"; "lodash"; "-r"] "rm"). reflexivity. Defined.

(** X7: a warning is the decision exactly when the kept verb is one of
    the labels of the warning group. *)
Theorem warning_exactly_for_state_mutating (pnpmArgs : list string) :
  decision (classify pnpmArgs) = AllowWithWarning <->
  exists v, recognizedVerb (classify pnpmArgs) = Some v /\ In v WARNING_COMMANDS.
Proof.
  rewrite classify_rules_correct. unfold classify_rules.
  assert (Hno : forall d l, d <> AllowWithWarning ->
            decision {| decision := d; resulting := l; recognizedVerb := None |}
              = AllowWithWarning <->
            exists v, recognizedVerb
                        {| decision := d; resulting := l; recognizedVerb := None |} = Some v /\
                      In v WARNING_COMMANDS).
  { intros d l Hd. cbn. split; [congruence | intros (v & H & _); discriminate H]. }
  destruct (at_is pnpmArgs 0 RUSH_SKIP_CHECKS_PARAMETER); [now apply Hno|].
  destruct pnpmArgs as [|firstArg rest]; [now apply Hno|].
  destruct (has_help_flag (firstArg :: rest)); [now apply Hno|].
  destruct ((length (firstArg :: rest) =? 1)%nat && is_version_flag firstArg);
    [now apply Hno|].
  destruct (negb (verb_pattern_test firstArg)); [now apply Hno|].
  destruct (at_is (firstArg :: rest) 1 RUSH_SKIP_CHECKS_PARAMETER); [now apply Hno|].
  destruct (0 <=? indexOf (firstArg :: rest) RUSH_SKIP_CHECKS_PARAMETER); [now apply Hno|].
  cbn [decision recognizedVerb]. rewrite verb_policy_warning. split.
  - intros H. now exists firstArg.
  - intros (v & [= <-] & H). exact H.
Qed.

(** X8: what the user sees.  An allowed list writes nothing; a warning is
    exactly two lines on the warning channel; a rejection starts with a
    line on the error channel, followed at most by the bypass notice. *)
Theorem rejections_are_reported (pnpmArgs : list string) :
  match decision (classify pnpmArgs) with
  | Allow => report pnpmArgs = []
  | AllowWithWarning =>
      exists m1 m2,
        report pnpmArgs = [Terminal WarningLine m1; Terminal WarningLine m2]
  | Reject =>
      exists m after,
        report pnpmArgs = Terminal ErrorLine m :: after /\
        (after = [] \/ after = [Terminal Line (cyan (Text BYPASS_NOTICE))])
  end.
Proof.
  unfold classify, report, _validatePnpmUsage.
  repeat match goal with
         | |- context [if ?b then _ else _] => destruct b
         | |- context [match ?l with [] => _ | _ :: _ => _ end] => destruct l
         end;
    cbn;
    first [ reflexivity
          | do 2 eexists; reflexivity
          | do 2 eexists; split; [reflexivity | auto] ].
Qed.

(** X9: the labels of the [switch].  No label occurs twice, so the order
    of the cases decides nothing, and every label matches the verb
    pattern, so every case can be reached. *)
Theorem case_labels_distinct_and_reachable :
  NoDup (BLOCKED ++ INSTALL_COMMANDS ++ WARNING_COMMANDS ++ KNOWN_SAFE) /\
  Forall (fun v => verb_pattern_test v = true)
         (BLOCKED ++ INSTALL_COMMANDS ++ WARNING_COMMANDS ++ KNOWN_SAFE).
Proof.
  split.
  - apply (bool_decide_unpack _). vm_compute. exact I.
  - repeat constructor.
Qed.

(** ** More on the environment merge *)

(** X10: a name that the wrapper does not set and that no entry declares
    reaches the child as the parent has it, defined or not. *)
Theorem unrelated_variables_pass_through
    (env : gmap string string) (c : RushConfiguration) (k : string) :
  ~ In k (reserved c) ->
  ~ In k (map fst (declared c)) ->
  pnpmEnvironmentMap env c !! k = env !! k.
Proof.
  intros Hr Hd. rewrite pnpmEnvironmentMap_loop.
  rewrite loop_not_declared by exact Hd.
  now apply preset_not_reserved.
Qed.

Lemma unrelated_variables_pass_through_witness :
  pnpmEnvironmentMap {[ "PATH" := "/usr/bin" ]}
    (example_configuration (Some "/store")
       (Some [("KEY", {| value := "override"; override := true |})]))
    !! "PATH" = Some "/usr/bin" /\
  pnpmEnvironmentMap {[ "PATH" := "/usr/bin" ]}
    (example_configuration (Some "/store")
       (Some [("KEY", {| value := "override"; override := true |})]))
    !! "HOME" = None.
Proof.
  split.
  - refine (eq_trans (unrelated_variables_pass_through {[ "PATH" := "/usr/bin" ]}
              (example_configuration (Some "/store")
                 (Some [("KEY", {| value := "override"; override := true |})]))
              "PATH" _ _) _).
    3: vm_compute; reflexivity.
    + simpl. intros [H | [H | H]]; [discriminate H | discriminate H | exact H].
    + simpl. intros [H | H]; [discriminate H | exact H].
  - refine (eq_trans (unrelated_variables_pass_through {[ "PATH" := "/usr/bin" ]}
              (example_configuration (Some "/store")
                 (Some [("KEY", {| value := "override"; override := true |})]))
              "HOME" _ _) _).
    3: vm_compute; reflexivity.
    + simpl. intros [H | [H | H]]; [discriminate H | discriminate H | exact H].
    + simpl. intros [H | H]; [discriminate H | exact H].
Defined.

Lemma preset_store_dir (env : gmap string string) (c : RushConfiguration) (p : string) :
  pnpmStorePath (pnpmOptions c) = Some p ->
  truthy p = true ->
  preset env c !! "NPM_CONFIG_STORE_DIR" = Some p.
Proof.
  intros Hp Ht. unfold preset, EnvironmentMap_set. rewrite Hp, Ht.
  apply lookup_insert_eq.
Qed.

(** X11: with a non-empty store path in the configuration,
    [NPM_CONFIG_STORE_DIR] is set to it before the loop, whatever the
    parent holds: a declared entry replaces it when its flag is on and
    does nothing when its flag is off. *)
Theorem store_dir_set_when_configured
    (env : gmap string string) (c : RushConfiguration) (p : string) :
  pnpmStorePath (pnpmOptions c) = Some p ->
  truthy p = true ->
  NoDup (map fst (declared c)) ->
  (forall e, In ("NPM_CONFIG_STORE_DIR", e) (declared c) ->
     pnpmEnvironmentMap env c !! "NPM_CONFIG_STORE_DIR" =
     Some (if override e then value e else p)) /\
  (~ In "NPM_CONFIG_STORE_DIR" (map fst (declared c)) ->
     pnpmEnvironmentMap env c !! "NPM_CONFIG_STORE_DIR" = Some p).
Proof.
  intros Hp Ht Hnd. split.
  - intros e Hin. rewrite (pnpmEnvironmentMap_declared env c _ e Hnd Hin).
    now rewrite (preset_store_dir env c p Hp Ht).
  - intros Hout. rewrite pnpmEnvironmentMap_loop.
    rewrite loop_not_declared by exact Hout.
    now apply preset_store_dir.
Qed.

Lemma store_dir_set_when_configured_witness :
  pnpmEnvironmentMap {[ "NPM_CONFIG_STORE_DIR" := "/parent/store" ]}
    (example_configuration (Some "/store") None)
    !! "NPM_CONFIG_STORE_DIR" = Some "/store".
Proof.
  refine (proj2 (store_dir_set_when_configured
            {[ "NPM_CONFIG_STORE_DIR" := "/parent/store" ]}
            (example_configuration (Some "/store") None) "/store" _ _ _) _).
  - reflexivity.
  - reflexivity.
  - apply NoDup_nil; exact I.
  - simpl. tauto.
Defined.

(** X12: an absent or empty store path sets nothing: the child gets
    [NPM_CONFIG_STORE_DIR] from the parent, unless an entry declares it. *)
Theorem store_dir_left_alone_without_store_path
    (env : gmap string string) (c : RushConfiguration) :
  pnpmStorePath (pnpmOptions c) = None \/
  pnpmStorePath (pnpmOptions c) = Some EmptyString ->
  ~ In "NPM_CONFIG_STORE_DIR" (map fst (declared c)) ->
  pnpmEnvironmentMap env c !! "NPM_CONFIG_STORE_DIR" = env !! "NPM_CONFIG_STORE_DIR".
Proof.
  intros Hp Hout. rewrite pnpmEnvironmentMap_loop.
  rewrite loop_not_declared by exact Hout.
  apply preset_not_reserved. unfold reserved.
  destruct Hp as [-> | ->]; simpl; intros [H | H]; [discriminate H | exact H |
                                                    discriminate H | exact H].
Qed.

Lemma store_dir_left_alone_without_store_path_witness :
  pnpmEnvironmentMap {[ "NPM_CONFIG_STORE_DIR" := "/parent/store" ]}
    (example_configuration (Some EmptyString) None)
    !! "NPM_CONFIG_STORE_DIR" = Some "/parent/store".
Proof.
  refine (eq_trans (store_dir_left_alone_without_store_path
            {[ "NPM_CONFIG_STORE_DIR" := "/parent/store" ]}
            (example_configuration (Some EmptyString) None) _ _) _).
  3: vm_compute; reflexivity.
  - right; reflexivity.
  - simpl. tauto.
Defined.

Lemma dom_apply_environmentVariable
    (m : gmap string string) (x : string * IConfigurationEnvironmentVariable) :
  dom (apply_environmentVariable m x) = dom m ∪ {[ fst x ]}.
Proof.
  apply set_eq. intros y.
  rewrite elem_of_union, elem_of_singleton, !elem_of_dom.
  destruct (decide (fst x = y)) as [<- | Hne].
  - destruct x as [k e]. rewrite apply_environmentVariable_same. simpl.
    split; [now right | eauto].
  - rewrite apply_environmentVariable_other by exact Hne.
    split; [now left | intros [H | H]; [exact H | congruence]].
Qed.

Lemma dom_loop
    (vars : list (string * IConfigurationEnvironmentVariable)) (m : gmap string string) :
  dom (foldl apply_environmentVariable m vars) = dom m ∪ list_to_set (map fst vars).
Proof.
  revert m. induction vars as [|x vars IH]; intros m; simpl.
  - now rewrite (right_id_L ∅ (∪)).
  - rewrite IH, dom_apply_environmentVariable. now rewrite <- (assoc_L (∪)).
Qed.

Lemma dom_preset (env : gmap string string) (c : RushConfiguration) :
  dom (preset env c) = dom env ∪ list_to_set (reserved c).
Proof.
  unfold preset, reserved, EnvironmentMap_set.
  destruct (pnpmStorePath (pnpmOptions c)) as [p|]; [destruct (truthy p)|];
    rewrite ?dom_insert_L; simpl; rewrite ?(right_id_L ∅ (∪));
    apply set_eq; intros y; rewrite ?elem_of_union; tauto.
Qed.

(** X13: the names that the child sees are those of the parent, those
    that the wrapper sets itself and those that the configuration
    declares, and no others. *)
Theorem child_environment_names (env : gmap string string) (c : RushConfiguration) :
  dom (pnpmEnvironmentMap env c) =
  dom env ∪ list_to_set (reserved c) ∪ list_to_set (map fst (declared c)).
Proof. now rewrite pnpmEnvironmentMap_loop, dom_loop, dom_preset. Qed.

(** X14: the order in which the entries are listed decides nothing, as
    long as no name is declared twice: two configurations that differ
    only in this order give the child the same environment. *)
Theorem declaration_order_is_irrelevant
    (env : gmap string string) (c c' : RushConfiguration) :
  commonTempFolder c = commonTempFolder c' ->
  pnpmStorePath (pnpmOptions c) = pnpmStorePath (pnpmOptions c') ->
  Permutation (declared c) (declared c') ->
  NoDup (map fst (declared c)) ->
  pnpmEnvironmentMap env c = pnpmEnvironmentMap env c'.
Proof.
  intros Hf Hp Hperm Hnd.
  assert (Hnd' : NoDup (map fst (declared c'))).
  { assert (Hm : Permutation (map fst (declared c)) (map fst (declared c')))
      by now apply Permutation_map.
    now rewrite <- Hm. }
  assert (Hpre : preset env c = preset env c').
  { unfold preset. now rewrite Hf, Hp. }
  apply map_eq. intros k. rewrite !pnpmEnvironmentMap_loop.
  destruct (in_dec string_dec k (map fst (declared c))) as [Hin | Hout].
  - apply in_map_iff in Hin as ([k' e] & Hk & Hin). simpl in Hk. subst k'.
    rewrite (loop_declared _ _ k e Hnd Hin).
    rewrite (loop_declared _ _ k e Hnd' (Permutation_in _ Hperm Hin)).
    now rewrite Hpre.
  - rewrite loop_not_declared by exact Hout.
    rewrite loop_not_declared; [now rewrite Hpre|].
    intros Hin. apply Hout.
    eapply Permutation_in; [|exact Hin].
    apply Permutation_map. now symmetry.
Qed.

Lemma declaration_order_is_irrelevant_witness :
  pnpmEnvironmentMap {[ "B" := "base" ]}
    (example_configuration None
       (Some [("A", {| value := "a"; override := false |});
              ("B", {| value := "b"; override := true |})])) =
  pnpmEnvironmentMap {[ "B" := "base" ]}
    (example_configuration None
       (Some [("B", {| value := "b"; override := true |});
              ("A", {| value := "a"; override := false |})])).
Proof.
  apply declaration_order_is_irrelevant.
  - reflexivity.
  - reflexivity.
  - apply perm_swap.
  - distinct_names.
Defined.

(** ** More on the constructor and [execute] *)

(** [_validatePnpmUsage] touches the world through the terminal only, and
    it writes on the error channel exactly when it rejects. *)
Lemma report_terminal (pnpmArgs : list string) :
  forallb is_terminal (report pnpmArgs) = true.
Proof.
  unfold report, _validatePnpmUsage.
  repeat match goal with
         | |- context [if ?b then _ else _] => destruct b
         | |- context [match ?l with [] => _ | _ :: _ => _ end] => destruct l
         end; reflexivity.
Qed.

Lemma report_error_iff_reject (pnpmArgs : list string) :
  existsb is_error_line (report pnpmArgs) = true <->
  decision (classify pnpmArgs) = Reject.
Proof.
  unfold classify, report, _validatePnpmUsage.
  repeat match goal with
         | |- context [if ?b then _ else _] => destruct b
         | |- context [match ?l with [] => _ | _ :: _ => _ end] => destruct l
         end; cbn; split; congruence.
Qed.

Lemma terminal_only_no_spawns (l : list Event) :
  forallb is_terminal l = true -> spawns l = [] /\ syncs l = [] /\ List.filter is_probe l = [].
Proof.
  induction l as [|e l IH]; [intros _; repeat split|].
  simpl. intros H. apply andb_true_iff in H as [He Hl].
  destruct e; try discriminate. simpl. now apply IH.
Qed.

Lemma ready_checks_pass (h : Host) (fs : string -> bool) (c : RushConfiguration) :
  ready h fs c <-> rushJson h = Some c /\ checks_pass fs c = true.
Proof.
  unfold ready, checks_pass. rewrite !andb_true_iff. tauto.
Qed.

(** The log of the constructor in a ready workspace: the two probes, then
    what the classification writes. *)
Lemma new_parser_ready_log (h : Host) (fs : string -> bool) (c : RushConfiguration)
    (exitCode : option Z) :
  ready h fs c ->
  log (new_RushPnpmCommandLineParser h exitCode fs) =
  [Exists (path_join [commonTempFolder c; "pnpm-workspace.yaml"]);
   Exists (packageManagerToolFilename c)] ++ report (slice_2 (process_argv h)).
Proof.
  intros (Hj & Hpm & Huw & Hf1 & Hf2).
  unfold new_RushPnpmCommandLineParser, constructor_try. rewrite Hj.
  unfold bind, set_rushConfiguration, FileSystem_exists, bind, emit, get, fresh.
  cbn. rewrite Hpm, Huw. cbn. rewrite Hf1. cbn. rewrite Hf2. cbn.
  pose proof (validatePnpmUsage_effects (slice_2 (process_argv h))
                (fresh None (fun _ => false))) as [_ He].
  rewrite validatePnpmUsage_frame. unfold report.
  destruct (_validatePnpmUsage (slice_2 (process_argv h)) (fresh None (fun _ => false)))
    as [st' [args'|e]]; cbn in *; [reflexivity|].
  rewrite (He e eq_refl). reflexivity.
Qed.

(** The constructor when a check fails, check by check: the parser keeps
    the configuration when one was found, never the arguments or a verb,
    and the log holds the probes made so far and the report. *)
Lemma new_parser_not_ready (h : Host) (fs : string -> bool) (exitCode : option Z) :
  match rushJson h with
  | Some c => checks_pass fs c = false
  | None => True
  end ->
  let parser := new_RushPnpmCommandLineParser h exitCode fs in
  _rushConfiguration parser = rushJson h /\
  _pnpmArgs parser = None /\
  _commandName parser = None /\
  process_exitCode parser = exitCode /\
  files parser = fs /\
  spawns (log parser) = [] /\
  syncs (log parser) = [] /\
  (length (List.filter is_probe (log parser)) <= 2)%nat /\
  existsb is_error_line (log parser) = true.
Proof.
  unfold new_RushPnpmCommandLineParser, constructor_try, checks_pass.
  destruct (rushJson h) as [c|]; [|intros _; cbn; repeat split; lia].
  unfold bind, set_rushConfiguration, FileSystem_exists, bind, emit, get, fresh.
  cbn.
  destruct (String.eqb (packageManager c) "pnpm"); cbn;
    [|intros _; repeat split; lia].
  destruct (useWorkspaces (pnpmOptions c)); cbn; [|intros _; repeat split; lia].
  destruct (fs (path_join [commonTempFolder c; "pnpm-workspace.yaml"])); cbn;
    [|intros _; repeat split; lia].
  destruct (fs (packageManagerToolFilename c)); cbn; [discriminate|].
  intros _; repeat split; lia.
Qed.

Lemma host_cases (h : Host) (fs : string -> bool) :
  (exists c, ready h fs c) \/
  match rushJson h with
  | Some c => checks_pass fs c = false
  | None => True
  end.
Proof.
  destruct (rushJson h) as [c|] eqn:Hj; [|now right].
  destruct (checks_pass fs c) eqn:Hc; [left | now right].
  exists c. now apply ready_checks_pass.
Qed.

Lemma report_allow (pnpmArgs : list string) :
  decision (classify pnpmArgs) = Allow -> report pnpmArgs = [].
Proof.
  unfold classify, report, _validatePnpmUsage.
  repeat match goal with
         | |- context [if ?b then _ else _] => destruct b
         | |- context [match ?l with [] => _ | _ :: _ => _ end] => destruct l
         end; cbn; congruence.
Qed.

(** The constructor neither spawns nor syncs. *)
Lemma constructor_sync_free (h : Host) (exitCode : option Z) (fs : string -> bool) :
  spawns (log (new_RushPnpmCommandLineParser h exitCode fs)) = [] /\
  syncs (log (new_RushPnpmCommandLineParser h exitCode fs)) = [].
Proof.
  destruct (host_cases h fs) as [[c Hready] | Hnot].
  - rewrite (new_parser_ready_log h fs c exitCode Hready).
    destruct (terminal_only_no_spawns _ (report_terminal (slice_2 (process_argv h))))
      as (Hs & Hy & _).
    unfold spawns, syncs in *. now rewrite !List.filter_app, Hs, Hy.
  - destruct (new_parser_not_ready h fs exitCode Hnot)
      as (_ & _ & _ & _ & _ & Hs & Hy & _).
    now split.
Qed.

(** X15: the constructor only looks and reports.  It calls neither the
    subprocess service nor the copy or the sync, probes the file system at
    most twice, and leaves [process.exitCode] and the files as they are. *)
Theorem constructor_only_probes_and_writes
    (h : Host) (exitCode : option Z) (fs : string -> bool) :
  spawns (log (new_RushPnpmCommandLineParser h exitCode fs)) = [] /\
  syncs (log (new_RushPnpmCommandLineParser h exitCode fs)) = [] /\
  (length (List.filter is_probe (log (new_RushPnpmCommandLineParser h exitCode fs))) <= 2)%nat /\
  process_exitCode (new_RushPnpmCommandLineParser h exitCode fs) = exitCode /\
  files (new_RushPnpmCommandLineParser h exitCode fs) = fs.
Proof.
  destruct (host_cases h fs) as [[c Hready] | Hnot].
  - destruct (new_parser_ready h fs c exitCode Hready) as (_ & _ & _ & He & Hf & _).
    rewrite (new_parser_ready_log h fs c exitCode Hready).
    destruct (terminal_only_no_spawns _ (report_terminal (slice_2 (process_argv h))))
      as (Hs & Hy & Hp).
    unfold spawns, syncs in *. rewrite !List.filter_app, Hs, Hy, Hp.
    repeat split; try assumption. simpl. lia.
  - destruct (new_parser_not_ready h fs exitCode Hnot)
      as (_ & _ & _ & He & Hf & Hs & Hy & Hp & _).
    repeat split; assumption.
Qed.

(** X16: no silent failure.  The constructor leaves [_pnpmArgs]
    unassigned exactly when it has written a line on the error channel. *)
Theorem constructor_reports_every_failure
    (h : Host) (exitCode : option Z) (fs : string -> bool) :
  _pnpmArgs (new_RushPnpmCommandLineParser h exitCode fs) = None <->
  existsb is_error_line (log (new_RushPnpmCommandLineParser h exitCode fs)) = true.
Proof.
  destruct (host_cases h fs) as [[c Hready] | Hnot].
  - destruct (new_parser_ready h fs c exitCode Hready) as (_ & _ & Ha & _).
    rewrite Ha, (new_parser_ready_log h fs c exitCode Hready).
    rewrite existsb_app. cbn [existsb is_error_line orb].
    rewrite report_error_iff_reject.
    destruct (decision (classify (slice_2 (process_argv h)))); split; congruence.
  - destruct (new_parser_not_ready h fs exitCode Hnot) as (_ & Ha & _ & _ & _ & _ & _ & _ & He).
    now rewrite Ha, He.
Qed.



(** X18: [execute] calls the subprocess service once when the parser has
    a configuration and not at all when it has none; it never calls it a
    second time, whatever the first call returns. *)
Theorem execute_spawns_at_most_once (h : Host) (st : State) :
  spawns (log (fst (execute h st))) =
  spawns (log st) ++
  match _rushConfiguration st with
  | Some c => [spawn_event h st c]
  | None => []
  end.
Proof.
  destruct (_rushConfiguration st) as [c|] eqn:Hc.
  - now apply execute_spawns_once.
  - destruct (execute_without_configuration h st Hc) as (-> & _).
    now rewrite List.app_nil_r.
Qed.

(** X19: the whole invocation calls the subprocess service exactly when
    a Rush configuration was found, and then once.  The arguments are the
    classified list when every check of the constructor passed and the
    list was not rejected; in every other case they are [undefined]. *)
Theorem launch_spawns (h : Host) (fs : string -> bool) :
  spawns (log (fst (launch h fs))) =
  match rushJson h with
  | Some c =>
      [SpawnSync (packageManagerToolFilename c) (spawned_arguments h fs c)
                 (pnpmEnvironmentMap (process_env h) c)]
  | None => []
  end.
Proof.
  unfold launch. destruct (host_cases h fs) as [[c Hready] | Hnot].
  - destruct (new_parser_ready h fs c None Hready) as (Hc & _ & Ha & _ & _ & Hs).
    apply ready_checks_pass in Hready as [Hj Hpass]. rewrite Hj.
    rewrite (execute_spawns_once h _ c Hc), Hs.
    unfold spawn_event, spawned_arguments. now rewrite Ha, Hpass.
  - destruct (new_parser_not_ready h fs None Hnot) as (Hc & Ha & _ & _ & _ & Hs & _).
    destruct (rushJson h) as [c|] eqn:Hj.
    + rewrite (execute_spawns_once h _ c Hc), Hs.
      unfold spawn_event, spawned_arguments. now rewrite Ha, Hnot.
    + destruct (execute_without_configuration h _ Hc) as (-> & _). exact Hs.
Qed.

(** ** The whole invocation *)

Lemma syncs_patch_commit_sync (c : RushConfiguration) (present : bool) :
  syncs (patch_commit_sync c present) =
  if present then
    [CopyFiles (commonTempPnpmPatchesFolder c) (rushPnpmPatchesFolder c);
     SyncFile (tempShrinkwrapFilename c) (getCommittedShrinkwrapFilename c)]
  else [].
Proof. destruct present; reflexivity. Qed.

(** The copies and syncs of [execute]: none by the spawn, and those of
    [_postExecute] behind its two conditions. *)
Lemma execute_syncs (h : Host) (st : State) (c : RushConfiguration) :
  _rushConfiguration st = Some c ->
  let st' := fst ((set_exitCode 1 ;; _execute h) st) in
  syncs (log (fst (execute h st))) =
  syncs (log st) ++
  if decide (process_exitCode st' = Some 0 /\ _commandName st = Some "patch-commit")
  then syncs (patch_commit_sync c (files st' (commonTempPnpmPatchesFolder c)))
  else [].
Proof.
  intros Hc st'. rewrite (execute_with_configuration h st c Hc). fold st'.
  destruct (invoke_with_configuration h st c Hc) as (Hc' & _ & Hn & _ & _ & Hl).
  fold st' in Hc', Hn, Hl.
  assert (Hs : syncs (log st') = syncs (log st)).
  { rewrite Hl. unfold syncs. rewrite List.filter_app. simpl.
    now rewrite List.app_nil_r. }
  destruct (decide (process_exitCode st' = Some 0)) as [H0 | H0].
  - rewrite (postExecute_log st' c Hc'), Hn. unfold syncs at 1.
    rewrite List.filter_app. fold (syncs (log st')). rewrite Hs.
    destruct (decide (_commandName st = Some "patch-commit")) as [Hv | Hv].
    + rewrite decide_True by (split; assumption). reflexivity.
    + rewrite decide_False by tauto. reflexivity.
  - rewrite decide_False by tauto. now rewrite Hs, List.app_nil_r.
Qed.

Lemma recognized_verb_inv (pnpmArgs : list string) (v : string) :
  recognizedVerb (classify pnpmArgs) = Some v ->
  exists rest,
    pnpmArgs = v :: rest /\
    has_help_flag rest = false /\
    ~ In RUSH_SKIP_CHECKS_PARAMETER rest.
Proof.
  rewrite classify_rules_correct. unfold classify_rules.
  destruct (at_is pnpmArgs 0 RUSH_SKIP_CHECKS_PARAMETER); [discriminate|].
  destruct pnpmArgs as [|firstArg rest]; [discriminate|].
  destruct (has_help_flag (firstArg :: rest)) eqn:Hh; [discriminate|].
  destruct ((length (firstArg :: rest) =? 1)%nat && is_version_flag firstArg); [discriminate|].
  destruct (verb_pattern_test firstArg) eqn:Hv; cbn [negb]; [|discriminate].
  destruct (at_is (firstArg :: rest) 1 RUSH_SKIP_CHECKS_PARAMETER); [discriminate|].
  destruct (0 <=? indexOf (firstArg :: rest) RUSH_SKIP_CHECKS_PARAMETER) eqn:Hi;
    [discriminate|].
  cbn [recognizedVerb]. intros [= <-]. exists rest.
  rewrite (has_help_flag_verb firstArg rest Hv) in Hh.
  repeat split; try assumption.
  intros Hin. assert (Hin' : In RUSH_SKIP_CHECKS_PARAMETER (firstArg :: rest)) by now right.
  apply indexOf_In in Hin'. congruence.
Qed.

(** X20: the copy and the sync happen only at the end of a successful
    [patch-commit]: the workspace is ready, the list starts with
    [patch-commit] and holds neither help flag nor sentinel, and the exit
    status is 0. *)
Theorem sync_only_after_successful_patch_commit (h : Host) (fs : string -> bool) :
  syncs (log (fst (launch h fs))) <> [] ->
  exists c rest,
    ready h fs c /\
    slice_2 (process_argv h) = "patch-commit" :: rest /\
    has_help_flag rest = false /\
    ~ In RUSH_SKIP_CHECKS_PARAMETER rest /\
    process_exitCode (fst (launch h fs)) = Some 0.
Proof.
  unfold launch. intros Hsync.
  destruct (host_cases h fs) as [[c Hready] | Hnot].
  - destruct (new_parser_ready h fs c None Hready) as (Hc & Hn & _).
    destruct (constructor_sync_free h None fs) as [_ Hy].
    rewrite (execute_syncs h _ c Hc), Hy, Hn in Hsync.
    rewrite (execute_with_configuration h _ c Hc).
    destruct (decide (process_exitCode
                        (fst ((set_exitCode 1 ;; _execute h)
                                (new_RushPnpmCommandLineParser h None fs))) = Some 0))
      as [H0 | H0].
    + destruct (decide (recognizedVerb (classify (slice_2 (process_argv h)))
                        = Some "patch-commit")) as [Hv | Hv].
      * destruct (recognized_verb_inv _ _ Hv) as (rest & Hargs & Hh & Hs).
        exists c, rest. rewrite postExecute_keeps_exitCode. auto.
      * rewrite decide_False in Hsync by tauto. now destruct Hsync.
    + rewrite decide_False in Hsync by tauto. now destruct Hsync.
  - destruct (new_parser_not_ready h fs None Hnot) as (Hc & _ & Hn & _ & _ & _ & Hy & _).
    destruct (rushJson h) as [c|] eqn:Hj.
    + rewrite (execute_syncs h _ c Hc), Hy, Hn in Hsync.
      rewrite decide_False in Hsync by (intros [_ H]; discriminate H).
      now destruct Hsync.
    + destruct (execute_without_configuration h _ Hc) as (Hl & _).
      rewrite Hl, Hy in Hsync. now destruct Hsync.
Qed.

Lemma sync_only_after_successful_patch_commit_witness :
  exists c rest,
    ready (example_host ["patch-commit"; "lodash@4.17.21"]) (fun _ => true) c /\
    slice_2 (process_argv (example_host ["patch-commit"; "lodash@4.17.21"])) =
      "patch-commit" :: rest /\
    has_help_flag rest = false /\
    ~ In RUSH_SKIP_CHECKS_PARAMETER rest /\
    process_exitCode
      (fst (launch (example_host ["patch-commit"; "lodash@4.17.21"]) (fun _ => true))) =
      Some 0.
Proof.
  apply (sync_only_after_successful_patch_commit
           (example_host ["patch-commit"; "lodash@4.17.21"]) (fun _ => true)).
  vm_compute. discriminate.
Defined.

(** The log and the exit status of the whole invocation in a ready
    workspace, from the classification and the answer of the child. *)
Lemma launch_ready (h : Host) (fs : string -> bool) (c : RushConfiguration)
    (args : list string) :
  ready h fs c ->
  decision (classify (slice_2 (process_argv h))) = Allow ->
  resulting (classify (slice_2 (process_argv h))) = args ->
  let answer :=
    Executable_spawnSync h (packageManagerToolFilename c) (Some args)
      (pnpmEnvironmentMap (process_env h) c) fs in
  log (fst (launch h fs)) =
  [Exists (path_join [commonTempFolder c; "pnpm-workspace.yaml"]);
   Exists (packageManagerToolFilename c);
   SpawnSync (packageManagerToolFilename c) (Some args)
             (pnpmEnvironmentMap (process_env h) c)] ++
  (if decide (exit_status_of (fst answer) = 0 /\
              recognizedVerb (classify (slice_2 (process_argv h))) = Some "patch-commit")
   then patch_commit_sync c (snd answer (commonTempPnpmPatchesFolder c))
   else []) /\
  process_exitCode (fst (launch h fs)) = Some (exit_status_of (fst answer)).
Proof.
  intros Hready Hdec Hres answer. unfold launch.
  destruct (new_parser_ready h fs c None Hready) as (Hc & Hn & Ha & _ & Hf & _).
  pose proof (new_parser_ready_log h fs c None Hready) as Hlog.
  rewrite (report_allow _ Hdec) in Hlog. rewrite Hdec, Hres in Ha.
  set (parser := new_RushPnpmCommandLineParser h None fs) in *.
  destruct (invoke_with_configuration h parser c Hc) as (Hc' & _ & Hn' & He & Hf' & Hl).
  assert (Hans : spawn_answer h parser c = answer).
  { unfold spawn_answer, answer. now rewrite Ha, Hf. }
  rewrite Hans in He, Hf'. unfold spawn_event in Hl. rewrite Ha, Hlog in Hl.
  rewrite (execute_with_configuration h parser c Hc).
  set (st' := fst ((set_exitCode 1 ;; _execute h) parser)) in *.
  destruct (decide (process_exitCode st' = Some 0)) as [H0 | H0].
  - rewrite postExecute_keeps_exitCode, (postExecute_log st' c Hc'), Hl, Hn', Hn, Hf', He.
    split; [|reflexivity]. rewrite He in H0. injection H0 as H0.
    destruct (decide (recognizedVerb (classify (slice_2 (process_argv h)))
                      = Some "patch-commit")) as [Hv | Hv].
    + now rewrite decide_True by (split; assumption).
    + now rewrite decide_False by tauto.
  - rewrite Hl, He. split; [|reflexivity].
    rewrite He in H0. rewrite decide_False by (intros [H _]; congruence).
    reflexivity.
Qed.

(** X21: a successful [patch-commit] from end to end.  In a ready
    workspace, with neither help flag nor sentinel behind the verb, a child
    that exits with status 0 and leaves the temporary patches folder
    behind: the invocation probes the two files, spawns PNPM with the list
    as given, probes the folder, copies it, syncs the lockfile, tells the
    user, and the exit status is 0. *)
Theorem patch_commit_end_to_end
    (h : Host) (fs : string -> bool) (c : RushConfiguration) (rest : list string) :
  ready h fs c ->
  slice_2 (process_argv h) = "patch-commit" :: rest ->
  has_help_flag rest = false ->
  ~ In RUSH_SKIP_CHECKS_PARAMETER rest ->
  error (fst (Executable_spawnSync h (packageManagerToolFilename c)
                (Some ("patch-commit" :: rest))
                (pnpmEnvironmentMap (process_env h) c) fs)) = None ->
  status (fst (Executable_spawnSync h (packageManagerToolFilename c)
                 (Some ("patch-commit" :: rest))
                 (pnpmEnvironmentMap (process_env h) c) fs)) = Some 0 ->
  snd (Executable_spawnSync h (packageManagerToolFilename c)
         (Some ("patch-commit" :: rest))
         (pnpmEnvironmentMap (process_env h) c) fs)
      (commonTempPnpmPatchesFolder c) = true ->
  log (fst (launch h fs)) =
  [Exists (path_join [commonTempFolder c; "pnpm-workspace.yaml"]);
   Exists (packageManagerToolFilename c);
   SpawnSync (packageManagerToolFilename c) (Some ("patch-commit" :: rest))
             (pnpmEnvironmentMap (process_env h) c);
   Exists (commonTempPnpmPatchesFolder c);
   CopyFiles (commonTempPnpmPatchesFolder c) (rushPnpmPatchesFolder c);
   SyncFile (tempShrinkwrapFilename c) (getCommittedShrinkwrapFilename c);
   Terminal WarningLine PATCHES_REFRESHED] /\
  process_exitCode (fst (launch h fs)) = Some 0.
Proof.
  intros Hready Hargs Hh Hs Herr Hstat Hdir.
  assert (Hcl : classify (slice_2 (process_argv h)) =
                {| decision := Allow;
                   resulting := "patch-commit" :: rest;
                   recognizedVerb := Some "patch-commit" |}).
  { rewrite Hargs. now rewrite classify_table. }
  destruct (launch_ready h fs c ("patch-commit" :: rest) Hready) as [Hlog Hexit].
  { now rewrite Hcl. }
  { now rewrite Hcl. }
  unfold exit_status_of in Hlog, Hexit. rewrite Herr, Hstat in Hlog, Hexit.
  rewrite Hcl in Hlog. cbn [recognizedVerb] in Hlog.
  rewrite decide_True in Hlog by (split; reflexivity).
  rewrite Hdir in Hlog. split; [exact Hlog | exact Hexit].
Qed.

Lemma patch_commit_end_to_end_witness :
  log (fst (launch (example_host ["patch-commit"; "lodash@4.17.21"]) (fun _ => true))) =
  [Exists "/repo/common/temp/pnpm-workspace.yaml";
   Exists "/repo/common/temp/pnpm-local/node_modules/.bin/pnpm";
   SpawnSync "/repo/common/temp/pnpm-local/node_modules/.bin/pnpm"
             (Some ["patch-commit"; "lodash@4.17.21"])
             (pnpmEnvironmentMap ∅ (example_configuration None None));
   Exists "/repo/common/temp/patches";
   CopyFiles "/repo/common/temp/patches" "/repo/common/pnpm/patches";
   SyncFile "/repo/common/temp/pnpm-lock.yaml" "/repo/common/config/rush/pnpm-lock.yaml";
   Terminal WarningLine PATCHES_REFRESHED] /\
  process_exitCode
    (fst (launch (example_host ["patch-commit"; "lodash@4.17.21"]) (fun _ => true))) =
    Some 0.
Proof.
  apply (patch_commit_end_to_end
           (example_host ["patch-commit"; "lodash@4.17.21"]) (fun _ => true)
           (example_configuration None None) ["lodash@4.17.21"]).
  - repeat split.
  - reflexivity.
  - reflexivity.
  - intros [H | H]; [discriminate H | exact H].
  - reflexivity.
  - reflexivity.
  - reflexivity.
Defined.

(** X22: outside a Rush workspace nothing happens to the world.  The
    constructor writes its one report, [execute] resets the exit status
    to 1 and throws before any probe or spawn. *)
Theorem no_configuration_no_effect (h : Host) (fs : string -> bool) :
  rushJson h = None ->
  launch h fs =
  ({| _rushConfiguration := None;
      _pnpmArgs := None;
      _commandName := None;
      process_exitCode := Some 1;
      files := fs;
      log := [Terminal ErrorLine
                (Cat (Text LF) (wrapWords (Text ("ERROR: " +:+ NOT_IN_A_WORKSPACE))))] |},
   Throw NO_CONFIGURATION).
Proof.
  intros Hj. unfold launch, new_RushPnpmCommandLineParser, constructor_try.
  rewrite Hj. reflexivity.
Qed.

Lemma no_configuration_no_effect_witness :
  spawns (log (fst (launch {| process_argv := ["node"; "rush-pnpm"; "ls"];
                              process_env := ∅;
                              rushJson := None;
                              Executable_spawnSync :=
                                fun _ _ _ fs => ({| error := None; status := Some 0 |}, fs) |}
                           (fun _ => true)))) = [].
Proof.
  rewrite (no_configuration_no_effect
             {| process_argv := ["node"; "rush-pnpm"; "ls"];
                process_env := ∅;
                rushJson := None;
                Executable_spawnSync :=
                  fun _ _ _ fs => ({| error := None; status := Some 0 |}, fs) |}
             (fun _ => true) eq_refl).
  reflexivity.
Defined.

(** X23: an allowed list without kept verb, from end to end.  In a ready
    workspace, when the list is allowed and no verb is kept (the sentinel
    in front or right behind the verb, a help flag, a lone version flag,
    no argument at all), the invocation probes the two files and spawns
    PNPM with the resulting list, and does nothing else, whatever the
    child answers. *)
Theorem allowed_without_verb_end_to_end
    (h : Host) (fs : string -> bool) (c : RushConfiguration) :
  ready h fs c ->
  decision (classify (slice_2 (process_argv h))) = Allow ->
  recognizedVerb (classify (slice_2 (process_argv h))) = None ->
  log (fst (launch h fs)) =
  [Exists (path_join [commonTempFolder c; "pnpm-workspace.yaml"]);
   Exists (packageManagerToolFilename c);
   SpawnSync (packageManagerToolFilename c)
             (Some (resulting (classify (slice_2 (process_argv h)))))
             (pnpmEnvironmentMap (process_env h) c)].
Proof.
  intros Hready Hdec Hverb.
  destruct (launch_ready h fs c _ Hready Hdec eq_refl) as [Hlog _].
  rewrite Hlog, Hverb.
  rewrite decide_False by (intros [_ H]; discriminate H).
  reflexivity.
Qed.

Lemma allowed_without_verb_end_to_end_witness :
  log (fst (launch (example_host ["patch-commit"; "--rush-skip-checks"; "lodash@4.17.21"])
                   (fun _ => true))) =
  [Exists "/repo/common/temp/pnpm-workspace.yaml";
   Exists "/repo/common/temp/pnpm-local/node_modules/.bin/pnpm";
   SpawnSync "/repo/common/temp/pnpm-local/node_modules/.bin/pnpm"
             (Some ["patch-commit"; "lodash@4.17.21"])
             (pnpmEnvironmentMap ∅ (example_configuration None None))].
Proof.
  apply (allowed_without_verb_end_to_end
           (example_host ["patch-commit"; "--rush-skip-checks"; "lodash@4.17.21"])
           (fun _ => true) (example_configuration None None)).
  - repeat split.
  - reflexivity.
  - reflexivity.
Defined.
